(** * Hash bin delegation: the partitioner and the delegation builder

    A shallow embedding of [examples/repo_example/hashed_bin_delegation.py]
    (python-tuf) and the properties of its bin partitioner
    ([generate_hash_bins], [find_hash_bin], [_bin_name]) and of the
    module-level script that wires, fills and signs the trust documents.

    Conventions of the embedding:
    - Python [int] is [Z]; [//] and [%] are [Z.div] and [Z.modulo], which
      round like Python's (floor, remainder with the sign of the divisor);
      division by zero raises.
    - The text produced by the formatting mini-language ([f"{n:x}"], bin
      names, hex digests) is ASCII and is a [string].  An arbitrary Python
      [str] that is handed to [str.encode] (the target path) is a list of
      Unicode code points, type [pystr].
    - Python exceptions are the [Raise] branch of [result].
    - [dict] and [OrderedDict] keep insertion order: association lists with
      in-place replacement. *)

From Stdlib Require Import ZArith List String Ascii Bool Lia.
Import ListNotations.
Open Scope Z_scope.

(* ================================================================= *)
(** ** Exceptions *)

Inductive exn : Type :=
| ZeroDivisionError
| ValueError
| UnicodeEncodeError
| AttributeError
| KeyError (key : string).

Inductive result (A : Type) : Type :=
| Ok (a : A)
| Raise (e : exn).

Arguments Ok {A} a.
Arguments Raise {A} e.

Definition bind {A B : Type} (c : result A) (k : A -> result B) : result B :=
  match c with
  | Ok a => k a
  | Raise e => Raise e
  end.

Notation "x <- c ;; k" := (bind c (fun x => k))
  (at level 61, c at next level, right associativity).

(** Threading a fallible loop body through the items of an iterable: the
    first exception stops the loop. *)
Fixpoint for_each {A S : Type} (body : S -> A -> result S) (items : list A)
    (s : S) : result S :=
  match items with
  | [] => Ok s
  | x :: rest => s' <- body s x ;; for_each body rest s'
  end.

(* ================================================================= *)
(** ** Integer arithmetic of the host language *)

(** [a // b] *)
Definition floordiv (a b : Z) : result Z :=
  if b =? 0 then Raise ZeroDivisionError else Ok (a / b).

(** [a % b] *)
Definition pymod (a b : Z) : result Z :=
  if b =? 0 then Raise ZeroDivisionError else Ok (a mod b).

(** Number of items of [range(start, stop, step)] for [step <> 0]. *)
Definition range_len (start stop step : Z) : nat :=
  Z.to_nat (if 0 <? step
            then (stop - start + step - 1) / step
            else (start - stop - step - 1) / (- step)).

Definition range_items (start stop step : Z) : list Z :=
  map (fun i => start + Z.of_nat i * step) (seq 0 (range_len start stop step)).

(** [range(start, stop, step)]: a zero step is a [ValueError]. *)
Definition range3 (start stop step : Z) : result (list Z) :=
  if step =? 0 then Raise ValueError else Ok (range_items start stop step).

(** [range(start, stop)] *)
Definition range2 (start stop : Z) : list Z := range_items start stop 1.

(* ================================================================= *)
(** ** Hexadecimal formatting and parsing *)

Definition hexdigit (d : Z) : ascii :=
  match d with
  | 0 => "0" | 1 => "1" | 2 => "2" | 3 => "3"
  | 4 => "4" | 5 => "5" | 6 => "6" | 7 => "7"
  | 8 => "8" | 9 => "9" | 10 => "a" | 11 => "b"
  | 12 => "c" | 13 => "d" | 14 => "e" | _ => "f"
  end%char.

(** The [w] least significant hexadecimal digits of [n], most significant
    first. *)
Fixpoint hex_fixed (w : nat) (n : Z) : string :=
  match w with
  | O => EmptyString
  | S w' => hex_fixed w' (n / 16) ++ String (hexdigit (n mod 16)) EmptyString
  end.

(** Number of hexadecimal digits of [n >= 0] (one digit for zero). *)
Definition hexlen (n : Z) : nat := S (Z.to_nat (Z.log2 n / 4)).

(** [f"{n:0{w}x}"]: lowercase hexadecimal, zero-padded to a minimal width of
    [w] characters; the sign of a negative number comes first and counts in
    the width. *)
Definition format_0x (w : nat) (n : Z) : string :=
  if n <? 0
  then String "-" (hex_fixed (Nat.max (w - 1) (hexlen (- n))) (- n))
  else hex_fixed (Nat.max w (hexlen n)) n.

(** [f"{n:x}"] *)
Definition format_x (n : Z) : string := format_0x 0 n.

(** The value of a hexadecimal digit, lower or upper case, from its
    character code. *)
Definition hexval (c : ascii) : option Z :=
  let code := Z.of_N (N_of_ascii c) in
  if (48 <=? code) && (code <=? 57) then Some (code - 48)
  else if (97 <=? code) && (code <=? 102) then Some (code - 87)
  else if (65 <=? code) && (code <=? 70) then Some (code - 55)
  else None.

Fixpoint int16_digits (s : string) (acc : Z) : option Z :=
  match s with
  | EmptyString => Some acc
  | String c s' =>
      match hexval c with
      | Some d => int16_digits s' (16 * acc + d)
      | None => None
      end
  end.

(** [int(s, 16)] on a string of hexadecimal digits; the empty string and any
    other character are a [ValueError].  (The builtin also accepts a sign, a
    [0x] prefix, underscores and surrounding blanks; a slice of a hex digest
    has none of them.) *)
Definition int16 (s : string) : result Z :=
  match s with
  | EmptyString => Raise ValueError
  | _ => match int16_digits s 0 with
         | Some v => Ok v
         | None => Raise ValueError
         end
  end.

(** [s[:k]] *)
Definition slice_to (k : nat) (s : string) : string := substring 0 k s.

(* ================================================================= *)
(** ** Module constants (lines 69-82) *)

Record Constants : Type := {
  NUMBER_OF_BINS : Z;
  PREFIX_LEN : nat;
  NUMBER_OF_PREFIXES : Z;
  BIN_SIZE : Z
}.

(** Loading the module with a configured number of bins: everything else is
    derived; the only operation that can raise is the floor division. *)
Definition module_constants (number_of_bins : Z) : result Constants :=
  let prefix_len := String.length (format_x (number_of_bins - 1)) in
  let number_of_prefixes := 16 ^ Z.of_nat prefix_len in
  bin_size <- floordiv number_of_prefixes number_of_bins ;;
  Ok {| NUMBER_OF_BINS := number_of_bins;
        PREFIX_LEN := prefix_len;
        NUMBER_OF_PREFIXES := number_of_prefixes;
        BIN_SIZE := bin_size |}.

(* ================================================================= *)
(** ** Helpers (lines 87-126) *)

Definition _bin_name (g : Constants) (low high : Z) : string :=
  if low =? high
  then format_0x (PREFIX_LEN g) low
  else format_0x (PREFIX_LEN g) low ++ "-" ++ format_0x (PREFIX_LEN g) high.

(** One iteration of the generator loop: the bin that starts at [low]. *)
Definition hash_bin (g : Constants) (low : Z) : string * list string :=
  let high := low + BIN_SIZE g - 1 in
  let bin_name := _bin_name g low high in
  let hash_prefixes :=
    map (format_0x (PREFIX_LEN g)) (range2 low (low + BIN_SIZE g)) in
  (bin_name, hash_prefixes).

(** The items the generator yields, in order. *)
Definition generate_hash_bins (g : Constants)
  : result (list (string * list string)) :=
  lows <- range3 0 (NUMBER_OF_PREFIXES g) (BIN_SIZE g) ;;
  Ok (map (hash_bin g) lows).


(* ================================================================= *)
(** ** [hashlib.sha256] (FIPS 180-4), on bytes as integers *)

Module SHA256.

Definition mask32 (x : Z) : Z := Z.land x 0xffffffff.
Definition add32 (x y : Z) : Z := mask32 (x + y).
Definition rotr (n x : Z) : Z :=
  Z.lor (Z.shiftr x n) (mask32 (Z.shiftl x (32 - n))).

Definition Ch (x y z : Z) : Z :=
  Z.lxor (Z.land x y) (Z.land (mask32 (Z.lnot x)) z).
Definition Maj (x y z : Z) : Z :=
  Z.lxor (Z.lxor (Z.land x y) (Z.land x z)) (Z.land y z).
Definition Sigma0 (x : Z) : Z :=
  Z.lxor (Z.lxor (rotr 2 x) (rotr 13 x)) (rotr 22 x).
Definition Sigma1 (x : Z) : Z :=
  Z.lxor (Z.lxor (rotr 6 x) (rotr 11 x)) (rotr 25 x).
Definition sigma0 (x : Z) : Z :=
  Z.lxor (Z.lxor (rotr 7 x) (rotr 18 x)) (Z.shiftr x 3).
Definition sigma1 (x : Z) : Z :=
  Z.lxor (Z.lxor (rotr 17 x) (rotr 19 x)) (Z.shiftr x 10).

(** The round constants and the initial hash value come from the first
    primes: the first 32 bits of the fractional parts of their cube roots
    and of their square roots. *)
Definition is_prime (n : nat) : bool :=
  forallb (fun d => negb (Nat.eqb (Nat.modulo n d) 0)) (seq 2 (n - 2)).

Definition primes : list Z := Eval vm_compute in
  map Z.of_nat (filter is_prime (seq 2 310)).

(** The largest [r] below [2^bits] with [r^3 <= x], bit by bit. *)
Fixpoint cube_root (bits : nat) (x r : Z) : Z :=
  match bits with
  | O => r
  | S bits' =>
      let r' := r + 2 ^ Z.of_nat bits' in
      if r' * r' * r' <=? x then cube_root bits' x r' else cube_root bits' x r
  end.

Definition K : list Z := Eval vm_compute in
  map (fun p => mask32 (cube_root 40 (p * 2 ^ 96) 0)) primes.

(** The eight working (and chaining) words. *)
Record words8 : Type := W8 { wa : Z; wb : Z; wc : Z; wd : Z;
                             we : Z; wf : Z; wg : Z; wh : Z }.

Definition fractional_sqrt (i : nat) : Z :=
  mask32 (Z.sqrt (nth i primes 0 * 2 ^ 64)).

Definition H0 : words8 := Eval vm_compute in
  W8 (fractional_sqrt 0) (fractional_sqrt 1) (fractional_sqrt 2)
     (fractional_sqrt 3) (fractional_sqrt 4) (fractional_sqrt 5)
     (fractional_sqrt 6) (fractional_sqrt 7).

(** Message padding: a one bit, zero bits up to 56 modulo 64 bytes, and the
    bit length as a 64-bit big-endian integer. *)
Definition big_endian (width : nat) (x : Z) : list Z :=
  map (fun i => Z.land (Z.shiftr x (8 * Z.of_nat i)) 0xff) (rev (seq 0 width)).

Definition pad (msg : list Z) : list Z :=
  let len := Z.of_nat (List.length msg) in
  msg ++ [0x80] ++ repeat 0 (Z.to_nat ((55 - len) mod 64))
      ++ big_endian 8 (8 * len).

Fixpoint chunks (count size : nat) (data : list Z) : list (list Z) :=
  match count with
  | O => []
  | S count' => firstn size data :: chunks count' size (skipn size data)
  end.

Definition word_of_bytes (bs : list Z) : Z :=
  fold_left (fun acc b => Z.lor (Z.shiftl acc 8) b) bs 0.

Definition block_words (block : list Z) : list Z :=
  map word_of_bytes (chunks 16 4 block).

(** Message schedule: [count] more words after the ones in [w]. *)
Fixpoint schedule (count : nat) (w : list Z) : list Z :=
  match count with
  | O => w
  | S count' =>
      let t := List.length w in
      let at_ (k : nat) := nth (t - k) w 0 in
      schedule count'
        (w ++ [add32 (add32 (add32 (sigma1 (at_ 2%nat)) (at_ 7%nat))
                            (sigma0 (at_ 15%nat)))
                     (at_ 16%nat)])
  end.

Definition round (s : words8) (kw : Z * Z) : words8 :=
  let '(k, w) := kw in
  let t1 := add32 (add32 (add32 (add32 (wh s) (Sigma1 (we s)))
                                (Ch (we s) (wf s) (wg s))) k) w in
  let t2 := add32 (Sigma0 (wa s)) (Maj (wa s) (wb s) (wc s)) in
  W8 (add32 t1 t2) (wa s) (wb s) (wc s) (add32 (wd s) t1) (we s) (wf s) (wg s).

Definition compress (h : words8) (block : list Z) : words8 :=
  let w := schedule 48 (block_words block) in
  let s := fold_left round (combine K w) h in
  W8 (add32 (wa h) (wa s)) (add32 (wb h) (wb s))
     (add32 (wc h) (wc s)) (add32 (wd h) (wd s))
     (add32 (we h) (we s)) (add32 (wf h) (wf s))
     (add32 (wg h) (wg s)) (add32 (wh h) (wh s)).

Definition digest_words (msg : list Z) : words8 :=
  let padded := pad msg in
  fold_left compress (chunks (List.length padded / 64) 64 padded) H0.

(** The hasher object: the bytes it has been fed. *)
Definition hasher : Type := list Z.
Definition new : hasher := [].
Definition update (h : hasher) (data : list Z) : hasher := h ++ data.

(** [hexdigest()]: the eight words, eight lowercase digits each. *)
Definition hexdigest (h : hasher) : string :=
  let d := digest_words h in
  hex_fixed 8 (wa d) ++ hex_fixed 8 (wb d) ++ hex_fixed 8 (wc d)
    ++ hex_fixed 8 (wd d) ++ hex_fixed 8 (we d) ++ hex_fixed 8 (wf d)
    ++ hex_fixed 8 (wg d) ++ hex_fixed 8 (wh d).

End SHA256.

(* ================================================================= *)
(** ** [str] and [str.encode("utf-8")] *)

(** A Python [str]: its code points, each in [range(0x110000)]. *)
Definition pystr : Type := list Z.

(** An ASCII literal as a [str]. *)
Definition str (s : string) : pystr :=
  map (fun c => Z.of_nat (nat_of_ascii c)) (list_ascii_of_string s).

Definition is_surrogate (c : Z) : bool := (0xD800 <=? c) && (c <=? 0xDFFF).

(** The strict UTF-8 codec: one to four bytes per code point; a surrogate
    code point has no encoding. *)
Definition encode_code_point (c : Z) : result (list Z) :=
  if c <? 0x80 then Ok [c]
  else if c <? 0x800 then
    Ok [Z.lor 0xC0 (Z.shiftr c 6); Z.lor 0x80 (Z.land c 0x3F)]
  else if c <? 0x10000 then
    if is_surrogate c then Raise UnicodeEncodeError
    else Ok [Z.lor 0xE0 (Z.shiftr c 12);
             Z.lor 0x80 (Z.land (Z.shiftr c 6) 0x3F);
             Z.lor 0x80 (Z.land c 0x3F)]
  else
    Ok [Z.lor 0xF0 (Z.shiftr c 18);
        Z.lor 0x80 (Z.land (Z.shiftr c 12) 0x3F);
        Z.lor 0x80 (Z.land (Z.shiftr c 6) 0x3F);
        Z.lor 0x80 (Z.land c 0x3F)].

Fixpoint encode_utf8 (s : pystr) : result (list Z) :=
  match s with
  | [] => Ok []
  | c :: rest =>
      bs <- encode_code_point c ;;
      more <- encode_utf8 rest ;;
      Ok (bs ++ more)
  end.

(** The hex digest of the encoded path (lines 118-120). *)
Definition target_name_hash (path : pystr) : result string :=
  data <- encode_utf8 path ;;
  let hasher := SHA256.new in
  let hasher := SHA256.update hasher data in
  Ok (SHA256.hexdigest hasher).

Definition find_hash_bin (g : Constants) (path : pystr) : result string :=
  target_name_hash <- target_name_hash path ;;
  prefix <- int16 (slice_to (PREFIX_LEN g) target_name_hash) ;;
  r <- pymod prefix (BIN_SIZE g) ;;
  let low := prefix - r in
  let high := low + BIN_SIZE g - 1 in
  Ok (_bin_name g low high).


(* ================================================================= *)
(** ** Insertion-ordered dictionaries *)

(** Keys are compared with [==]. *)
Class DictKey (K : Type) : Type := { key_eqb : K -> K -> bool }.

Class DictKeyLaws (K : Type) `{DictKey K} : Prop := {
  key_eqb_eq : forall a b : K, key_eqb a b = true <-> a = b
}.

#[global] Instance string_DictKey : DictKey string :=
  {| key_eqb := String.eqb |}.

Fixpoint pystr_eqb (a b : pystr) : bool :=
  match a, b with
  | [], [] => true
  | x :: a', y :: b' => (x =? y) && pystr_eqb a' b'
  | _, _ => false
  end.

#[global] Instance pystr_DictKey : DictKey pystr :=
  {| key_eqb := pystr_eqb |}.

Module Dict.
Section Ops.
Context {K V : Type} `{DictKey K}.

Definition t : Type := list (K * V).

Fixpoint get (d : t) (k : K) : option V :=
  match d with
  | [] => None
  | (k', v) :: d' => if key_eqb k' k then Some v else get d' k
  end.

(** [d[k] = v]: replaces the value of an existing key where it stands,
    appends a new key. *)
Fixpoint set (d : t) (k : K) (v : V) : t :=
  match d with
  | [] => [(k, v)]
  | (k', v') :: d' =>
      if key_eqb k' k then (k', v) :: d' else (k', v') :: set d' k v
  end.

Definition keys (d : t) : list K := map fst d.
End Ops.
Arguments t : clear implicits.
End Dict.

(** [d[k]] *)
Definition getitem {V : Type} (d : Dict.t string V) (k : string) : result V :=
  match Dict.get d k with
  | Some v => Ok v
  | None => Raise (KeyError k)
  end.

(* ================================================================= *)
(** ** The metadata object model (the parts the script constructs) *)

(** A key as [generate_ed25519_key] returns it. *)
Module SSlibKey.
Record t : Type := mk { keyid : string; public : string; private : string }.
End SSlibKey.

(** [tuf.api.metadata.Key]: the public part. *)
Module Key.
Record t : Type :=
  mk { keyid : string; keytype : string; scheme : string; public : string }.

Definition from_securesystemslib_key (k : SSlibKey.t) : t :=
  mk (SSlibKey.keyid k) "ed25519" "ed25519" (SSlibKey.public k).
End Key.

Module TargetFile.
Record t : Type := mk { length : Z; hashes : list (string * string) }.
End TargetFile.

Module DelegatedRole.
Record t : Type := mk {
  name : string;
  keyids : list string;
  threshold : Z;
  terminating : bool;
  path_hash_prefixes : list string
}.
End DelegatedRole.

Module Delegations.
Record t : Type := mk {
  keys : Dict.t string Key.t;
  roles : Dict.t string DelegatedRole.t
}.
End Delegations.

Module Targets.
Record t : Type := mk {
  version : Z;
  spec_version : string;
  expires : Z;
  targets : Dict.t pystr TargetFile.t;
  delegations : option Delegations.t
}.
End Targets.

Module Signature.
Record t : Type := mk { keyid : string; sig : string }.
End Signature.

Module Metadata.
Record t : Type := mk {
  signed : Targets.t;
  signatures : Dict.t string Signature.t
}.
End Metadata.

Definition SPEC_VERSION : string := "1.0.19".

(* ================================================================= *)
(** ** The script (lines 140-234) *)

Section Script.

(** The collaborators: the key generator (its k-th result), the clock
    (its k-th reading, whole seconds), the signature of a signed part
    under a key, the file info of the target, the output directory. *)
Variable generate_ed25519_key : nat -> SSlibKey.t.
Variable utcnow : nat -> Z.
Variable ed25519_sign : SSlibKey.t -> Targets.t -> string.
Variable target_file_info : TargetFile.t.
Variable TMP_DIR : string.

(** [_in(days)] at the [tick]-th reading of the clock. *)
Definition _in (tick : nat) (days : Z) : Z := utcnow tick + days * 86400.

(** Lines 140-141. *)
Definition provision_keys : Dict.t string SSlibKey.t :=
  fold_left (fun keys '(i, name) => Dict.set keys name (generate_ed25519_key i))
            (combine (seq 0 2) ["bin-n"%string; "bins"%string]) [].

(** Lines 151-167: the preliminary delegating role. *)
Definition create_bins_role (keys : Dict.t string SSlibKey.t)
  : result (Dict.t string Metadata.t) :=
  k1 <- getitem keys "bin-n" ;;
  k2 <- getitem keys "bin-n" ;;
  Ok (Dict.set [] "bins"%string
        (Metadata.mk
           (Targets.mk 1 SPEC_VERSION (_in 0 365) []
              (Some (Delegations.mk
                       (Dict.set [] (SSlibKey.keyid k1)
                                 (Key.from_securesystemslib_key k2))
                       [])))
           [])).

(** Lines 180-194: the loop body for the [i]-th generated bin. *)
Definition delegate_bin (keys : Dict.t string SSlibKey.t)
    (roles : Dict.t string Metadata.t)
    (item : nat * (string * list string))
  : result (Dict.t string Metadata.t) :=
  let '(i, (bin_n_name, bin_n_hash_prefixes)) := item in
  k <- getitem keys "bin-n" ;;
  let delegated_role :=
    DelegatedRole.mk bin_n_name [SSlibKey.keyid k] 1 false
                     bin_n_hash_prefixes in
  bins <- getitem roles "bins" ;;
  match Targets.delegations (Metadata.signed bins) with
  | None => Raise AttributeError
  | Some d =>
      let d' :=
        Delegations.mk (Delegations.keys d)
          (Dict.set (Delegations.roles d) bin_n_name delegated_role) in
      let s := Metadata.signed bins in
      let bins' :=
        Metadata.mk
          (Targets.mk (Targets.version s) (Targets.spec_version s)
             (Targets.expires s) (Targets.targets s) (Some d'))
          (Metadata.signatures bins) in
      let roles := Dict.set roles "bins"%string bins' in
      Ok (Dict.set roles bin_n_name
            (Metadata.mk
               (Targets.mk 1 SPEC_VERSION (_in (S i) 7) [] None) []))
  end.

Definition enumerate {A : Type} (l : list A) : list (nat * A) :=
  combine (seq 0 (List.length l)) l.

(** Lines 151-194. *)
Definition build_delegation (g : Constants) (keys : Dict.t string SSlibKey.t)
  : result (Dict.t string Metadata.t) :=
  roles <- create_bins_role keys ;;
  bins <- generate_hash_bins g ;;
  for_each (delegate_bin keys) (enumerate bins) roles.

(** [role.signed.targets[target_path] = info]: the role object is
    changed where it is; nothing looks at its signatures. *)
Definition set_target (role : Metadata.t) (target_path : pystr)
    (info : TargetFile.t) : Metadata.t :=
  let s := Metadata.signed role in
  Metadata.mk
    (Targets.mk (Targets.version s) (Targets.spec_version s)
       (Targets.expires s)
       (Dict.set (Targets.targets s) target_path info)
       (Targets.delegations s))
    (Metadata.signatures role).

(** Lines 213-214. *)
Definition add_target (g : Constants) (roles : Dict.t string Metadata.t)
    (target_path : pystr) (info : TargetFile.t)
  : result (Dict.t string Metadata.t) :=
  bin_for_target <- find_hash_bin g target_path ;;
  role <- getitem roles bin_for_target ;;
  Ok (Dict.set roles bin_for_target (set_target role target_path info)).

(** [Metadata.sign(signer)] with the default [append=False]: the
    signature list is cleared and the new signature stored under its key
    id. *)
Definition sign (role : Metadata.t) (key : SSlibKey.t) : Metadata.t :=
  let signature :=
    Signature.mk (SSlibKey.keyid key) (ed25519_sign key (Metadata.signed role)) in
  Metadata.mk (Metadata.signed role)
              (Dict.set [] (Signature.keyid signature) signature).

(** Lines 228-230. *)
Definition sign_role (keys : Dict.t string SSlibKey.t)
    (item : string * Metadata.t) : result (string * Metadata.t) :=
  let '(role_name, role) := item in
  key <- (if String.eqb role_name "bins"
          then getitem keys "bins" else getitem keys "bin-n") ;;
  Ok (role_name, sign role key).

(** Lines 232-234: the file a role is written to. *)
Definition persisted (item : string * Metadata.t) : string * Metadata.t :=
  let '(role_name, role) := item in
  let filename := (role_name ++ ".json")%string in
  ((TMP_DIR ++ "/" ++ filename)%string, role).

Record Repository : Type := {
  constants : Constants;
  keys : Dict.t string SSlibKey.t;
  roles : Dict.t string Metadata.t;
  files : list (string * Metadata.t)
}.

(** Lines 227-234: one role after the other is signed in place and written
    out; the state of the loop is the roles signed and the files written so
    far. *)
Definition sign_and_persist (keys : Dict.t string SSlibKey.t)
    (roles : Dict.t string Metadata.t)
  : result (Dict.t string Metadata.t * list (string * Metadata.t)) :=
  for_each
    (fun done item =>
       item' <- sign_role keys item ;;
       Ok (fst done ++ [item'], snd done ++ [persisted item']))
    roles ([], []).

(** The module, top to bottom, for a configured number of bins and a
    target path. *)
Definition script (number_of_bins : Z) (target_path : pystr)
  : result Repository :=
  g <- module_constants number_of_bins ;;
  let keys := provision_keys in
  roles <- build_delegation g keys ;;
  roles <- add_target g roles target_path target_file_info ;;
  out <- sign_and_persist keys roles ;;
  Ok {| constants := g; keys := keys; roles := fst out; files := snd out |}.

End Script.

(** The path the script computes for itself (lines 203-204). *)
Definition this_target_path : pystr :=
  str "repo_example/hashed_bin_delegation.py".

(* ================================================================= *)
(** ** Predicates and reference values used in the statements *)

(** Every character of [s] satisfies [p]. *)
Fixpoint string_forall (p : ascii -> bool) (s : string) : bool :=
  match s with
  | EmptyString => true
  | String c s' => p c && string_forall p s'
  end.

Definition is_hex_digit (c : ascii) : bool :=
  match hexval c with Some _ => true | None => false end.

(** A digit as the formatter writes it: [0-9a-f]. *)
Definition is_lower_hex (c : ascii) : bool :=
  match hexval c with
  | Some d => Ascii.eqb (hexdigit d) c
  | None => false
  end.

Definition is_name_char (c : ascii) : bool :=
  is_hex_digit c || Ascii.eqb c "-".

(** A number of bins is a power of two. *)
Definition is_power_of_two (n : Z) : Prop := exists k : nat, n = 2 ^ Z.of_nat k.

(** What loading the module establishes for a positive number of bins. *)
Definition well_formed (g : Constants) : Prop :=
  1 <= NUMBER_OF_BINS g /\
  (1 <= PREFIX_LEN g)%nat /\
  NUMBER_OF_PREFIXES g = 16 ^ Z.of_nat (PREFIX_LEN g) /\
  BIN_SIZE g = NUMBER_OF_PREFIXES g / NUMBER_OF_BINS g /\
  1 <= BIN_SIZE g.

(** The bins divide the prefixes evenly. *)
Definition evenly_divided (g : Constants) : Prop :=
  BIN_SIZE g * NUMBER_OF_BINS g = NUMBER_OF_PREFIXES g.

(** A [str] the strict UTF-8 codec accepts: no surrogate code point. *)
Definition encodable (path : pystr) : bool :=
  forallb (fun c => negb (is_surrogate c)) path.

(** The number of bins the source configures (line 69) and the constants it
    derives from it. *)
Definition configured_bins : Z := 32.

Definition constants_32 : Constants :=
  {| NUMBER_OF_BINS := 32; PREFIX_LEN := 2;
     NUMBER_OF_PREFIXES := 256; BIN_SIZE := 8 |}.

(** The delegation entry and the delegated document the loop creates for a
    generated bin, and the delegating document around the entries. *)
Definition delegated_role (k : SSlibKey.t) (bin : string * list string)
  : string * DelegatedRole.t :=
  (fst bin, DelegatedRole.mk (fst bin) [SSlibKey.keyid k] 1 false (snd bin)).

Definition bin_role (utcnow : nat -> Z) (item : nat * (string * list string))
  : string * Metadata.t :=
  (fst (snd item),
   Metadata.mk
     (Targets.mk 1 SPEC_VERSION (_in utcnow (S (fst item)) 7) [] None) []).

Definition bins_role (utcnow : nat -> Z) (k : SSlibKey.t)
    (delegated : Dict.t string DelegatedRole.t) : Metadata.t :=
  Metadata.mk
    (Targets.mk 1 SPEC_VERSION (_in utcnow 0 365) []
       (Some (Delegations.mk
                [(SSlibKey.keyid k, Key.from_securesystemslib_key k)]
                delegated)))
    [].

(** The key the signing loop picks for a role (line 228). *)
Definition signing_key (generate_ed25519_key : nat -> SSlibKey.t)
    (role_name : string) : SSlibKey.t :=
  if String.eqb role_name "bins"
  then generate_ed25519_key 1%nat else generate_ed25519_key 0%nat.

Definition signed_item (generate_ed25519_key : nat -> SSlibKey.t)
    (ed25519_sign : SSlibKey.t -> Targets.t -> string)
    (item : string * Metadata.t) : string * Metadata.t :=
  (fst item,
   sign ed25519_sign (snd item) (signing_key generate_ed25519_key (fst item))).

(** ** Sample collaborators, to run the script on concrete inputs *)

Definition sample_key (i : nat) : SSlibKey.t :=
  SSlibKey.mk ("keyid-" ++ format_x (Z.of_nat i))
              ("public-" ++ format_x (Z.of_nat i))
              ("private-" ++ format_x (Z.of_nat i)).

Definition sample_clock (tick : nat) : Z := 1700000000 + Z.of_nat tick.

Definition sample_sign (k : SSlibKey.t) (s : Targets.t) : string :=
  (SSlibKey.private k ++ "/" ++ format_x (Targets.expires s) ++ "/"
     ++ format_x (fold_left (fun sum item => sum + TargetFile.length (snd item))
                            (Targets.targets s) 0))%string.

Definition sample_info : TargetFile.t :=
  TargetFile.mk 9000 [("sha256"%string, "00ff"%string)].

Definition other_info : TargetFile.t :=
  TargetFile.mk 9001 [("sha256"%string, "ff00"%string)].

Definition sample_script (n : Z) (path : pystr) : result Repository :=
  script sample_key sample_clock sample_sign sample_info "tmp" n path.

(** A character a bin name can hold: a digit as the formatter writes it,
    or the dash (the sign, or the separator of a range). *)
Definition is_bin_name_char (c : ascii) : bool :=
  is_lower_hex c || Ascii.eqb c "-".

(* ================================================================= *)
(** * Properties *)

(** ** The hash function on the standard test vectors *)

Example sha256_constants :
  List.length SHA256.K = 64%nat /\
  nth 0 SHA256.K 0 = 0x428a2f98 /\ nth 63 SHA256.K 0 = 0xc67178f2 /\
  SHA256.wa SHA256.H0 = 0x6a09e667 /\ SHA256.wh SHA256.H0 = 0x5be0cd19.
Proof. repeat split. Qed.

Example sha256_empty :
  target_name_hash (str "")
  = Ok "e3b0c44298fc1c149afbf4c8996fb92427ae41e4649b934ca495991b7852b855"%string.
Proof. vm_compute. reflexivity. Qed.

Example sha256_abc :
  target_name_hash (str "abc")
  = Ok "ba7816bf8f01cfea414140de5dae2223b00361a396177a9cb410ff61f20015ad"%string.
Proof. vm_compute. reflexivity. Qed.

Example sha256_two_blocks :
  target_name_hash
    (str "abcdbcdecdefdefgefghfghighijhijkijkljklmklmnlmnomnopnopq")
  = Ok "248d6a61d20638b8e5c026930c3e6039a33ce45964ff2167f6ecedd419db06c1"%string.
Proof. vm_compute. reflexivity. Qed.

Example sha256_utf8 :
  target_name_hash [0xe9; 0x20ac; 0x1F600]
  = Ok "df9226927fd572c1ee66eec85de1bb139497614899f36e4e90474cb71f6ef9d0"%string.
Proof. vm_compute. reflexivity. Qed.

(** ** The error monad *)

Lemma bind_Ok_inv {A B : Type} (c : result A) (k : A -> result B) (b : B) :
  bind c k = Ok b -> exists a, c = Ok a /\ k a = Ok b.
Proof. destruct c as [a|e]; simpl; intros E; [eauto | discriminate]. Qed.

(** ** Strings *)

Section StringFacts.
Local Open Scope string_scope.

Lemma length_append (s t : string) :
  String.length (s ++ t) = (String.length s + String.length t)%nat.
Proof. induction s as [|c s IH]; simpl; [reflexivity | now rewrite IH]. Qed.

Lemma append_inv_length (s1 s2 t1 t2 : string) :
  String.length s1 = String.length s2 ->
  s1 ++ t1 = s2 ++ t2 -> s1 = s2 /\ t1 = t2.
Proof.
  revert s2; induction s1 as [|c s1 IH]; intros [|d s2]; simpl;
    try discriminate; intros Hlen E.
  - auto.
  - injection E as -> E. injection Hlen as Hlen.
    destruct (IH _ Hlen E) as [-> ->]. auto.
Qed.

Lemma slice_to_length (k : nat) (s : string) :
  String.length (slice_to k s) = Nat.min k (String.length s).
Proof.
  unfold slice_to. revert s; induction k as [|k IH]; intros [|c s]; simpl;
    try reflexivity.
  now rewrite IH.
Qed.

Lemma string_forall_append (p : ascii -> bool) (s t : string) :
  string_forall p (s ++ t) = string_forall p s && string_forall p t.
Proof.
  induction s as [|c s IH]; simpl; [reflexivity|].
  now rewrite IH, andb_assoc.
Qed.

Lemma string_forall_slice (p : ascii -> bool) (k : nat) (s : string) :
  string_forall p s = true -> string_forall p (slice_to k s) = true.
Proof.
  unfold slice_to. revert s; induction k as [|k IH]; intros [|c s]; simpl;
    try reflexivity.
  intros H. apply andb_true_iff in H as [Hc Hs].
  now rewrite Hc, IH.
Qed.
End StringFacts.

(** ** Hexadecimal digits *)

Lemma digit_cases (d : Z) :
  0 <= d < 16 ->
  d = 0 \/ d = 1 \/ d = 2 \/ d = 3 \/ d = 4 \/ d = 5 \/ d = 6 \/ d = 7 \/
  d = 8 \/ d = 9 \/ d = 10 \/ d = 11 \/ d = 12 \/ d = 13 \/ d = 14 \/ d = 15.
Proof. lia. Qed.

Lemma hexval_hexdigit (d : Z) : 0 <= d < 16 -> hexval (hexdigit d) = Some d.
Proof.
  intros H. apply digit_cases in H.
  repeat (destruct H as [->|H]; [reflexivity|]). subst; reflexivity.
Qed.

Lemma hexval_range (c : ascii) (d : Z) : hexval c = Some d -> 0 <= d < 16.
Proof.
  unfold hexval. set (code := Z.of_N (N_of_ascii c)).
  repeat match goal with
         | |- context [?a <=? ?b] => destruct (Z.leb_spec a b)
         end; cbn [andb]; intros E; try discriminate;
    injection E as <-; lia.
Qed.

Lemma hex_fixed_length (w : nat) (n : Z) : String.length (hex_fixed w n) = w.
Proof.
  revert n; induction w as [|w IH]; intros n; simpl; [reflexivity|].
  rewrite length_append, IH. simpl. lia.
Qed.

Lemma hex_fixed_digits (w : nat) (n : Z) :
  string_forall is_hex_digit (hex_fixed w n) = true.
Proof.
  revert n; induction w as [|w IH]; intros n; simpl; [reflexivity|].
  rewrite string_forall_append, IH. simpl.
  unfold is_hex_digit.
  rewrite hexval_hexdigit by (apply Z.mod_pos_bound; lia). reflexivity.
Qed.

Lemma int16_digits_append (s t : string) (acc : Z) :
  int16_digits (s ++ t) acc =
  match int16_digits s acc with
  | Some v => int16_digits t v
  | None => None
  end.
Proof.
  revert acc; induction s as [|c s IH]; intros acc; simpl; [reflexivity|].
  destruct (hexval c); [apply IH | reflexivity].
Qed.

(** Parsing undoes formatting: the [w] digits of [n] read back as
    [n mod 16^w] (shifted under what was read before). *)
Lemma int16_digits_hex_fixed (w : nat) (n acc : Z) :
  int16_digits (hex_fixed w n) acc
  = Some (acc * 16 ^ Z.of_nat w + n mod 16 ^ Z.of_nat w).
Proof.
  revert n acc; induction w as [|w IH]; intros n acc.
  - simpl. f_equal. rewrite Z.mod_1_r. lia.
  - cbn [hex_fixed]. rewrite int16_digits_append, IH. cbn [int16_digits].
    rewrite hexval_hexdigit by (apply Z.mod_pos_bound; lia).
    f_equal. rewrite Nat2Z.inj_succ, Z.pow_succ_r by lia.
    assert (Hp : 0 < 16 ^ Z.of_nat w) by (apply Z.pow_pos_nonneg; lia).
    rewrite (Z.mul_comm 16 (16 ^ Z.of_nat w)).
    rewrite (Z.rem_mul_r n (16 ^ Z.of_nat w) 16) by lia.
    assert (Hd : n mod 16 ^ Z.of_nat w + 16 ^ Z.of_nat w * ((n / 16 ^ Z.of_nat w) mod 16)
                 = 16 * ((n / 16) mod 16 ^ Z.of_nat w) + n mod 16).
    { rewrite <- (Z.rem_mul_r n (16 ^ Z.of_nat w) 16) by lia.
      rewrite (Z.mul_comm (16 ^ Z.of_nat w) 16).
      rewrite (Z.rem_mul_r n 16 (16 ^ Z.of_nat w)) by lia. lia. }
    lia.
Qed.

Lemma hex_fixed_inj (w : nat) (a b : Z) :
  0 <= a < 16 ^ Z.of_nat w -> 0 <= b < 16 ^ Z.of_nat w ->
  hex_fixed w a = hex_fixed w b -> a = b.
Proof.
  intros Ha Hb E.
  assert (H := int16_digits_hex_fixed w a 0).
  rewrite E, int16_digits_hex_fixed in H.
  rewrite !Z.mod_small in H by lia. injection H as H. lia.
Qed.

(** A string of [k] hexadecimal digits reads as a number below [16^k]. *)
Lemma int16_digits_bound (s : string) (acc : Z) :
  string_forall is_hex_digit s = true ->
  exists v, int16_digits s acc = Some v /\
            acc * 16 ^ Z.of_nat (String.length s) <= v
            < (acc + 1) * 16 ^ Z.of_nat (String.length s).
Proof.
  revert acc; induction s as [|c s IH]; intros acc H.
  - exists acc. simpl. split; [reflexivity | lia].
  - cbn [string_forall] in H. apply andb_true_iff in H as [Hc Hs].
    unfold is_hex_digit in Hc. cbn [int16_digits String.length].
    destruct (hexval c) as [d|] eqn:Ed; [|discriminate].
    apply hexval_range in Ed.
    destruct (IH (16 * acc + d) Hs) as (v & Ev & Hv).
    exists v. split; [exact Ev|].
    rewrite Nat2Z.inj_succ, Z.pow_succ_r by lia.
    assert (Hp : 0 < 16 ^ Z.of_nat (String.length s))
      by (apply Z.pow_pos_nonneg; lia).
    nia.
Qed.

Lemma hex_fixed_lower (w : nat) (n : Z) :
  string_forall is_lower_hex (hex_fixed w n) = true.
Proof.
  revert n; induction w as [|w IH]; intros n; simpl; [reflexivity|].
  rewrite string_forall_append, IH. simpl.
  unfold is_lower_hex.
  rewrite hexval_hexdigit by (apply Z.mod_pos_bound; lia).
  now rewrite Ascii.eqb_refl.
Qed.

(** The leading digit of a number of [w + 1] digits. *)
Lemma hex_fixed_cons (w : nat) (d r : Z) :
  0 <= r < 16 ^ Z.of_nat w ->
  hex_fixed (S w) (d * 16 ^ Z.of_nat w + r)
  = String (hexdigit (d mod 16)) (hex_fixed w r).
Proof.
  revert r; induction w as [|w IH]; intros r Hr.
  - cbn [hex_fixed]. simpl in Hr. replace r with 0 by lia.
    cbn [Z.of_nat]. rewrite Z.pow_0_r, Z.mul_1_r, Z.add_0_r. reflexivity.
  - assert (Hp : 0 < 16 ^ Z.of_nat w) by (apply Z.pow_pos_nonneg; lia).
    rewrite Nat2Z.inj_succ, Z.pow_succ_r in * by lia.
    change (hex_fixed (S (S w)) ?n)
      with (hex_fixed (S w) (n / 16) ++ String (hexdigit (n mod 16)) EmptyString)%string.
    replace (d * (16 * 16 ^ Z.of_nat w) + r)
      with (r + (d * 16 ^ Z.of_nat w) * 16) by lia.
    rewrite Z.div_add, Z.mod_add by lia.
    rewrite (Z.add_comm (r / 16)).
    rewrite IH.
    + reflexivity.
    + split; [apply Z.div_pos; lia | apply Z.div_lt_upper_bound; lia].
Qed.

(** Formatting undoes parsing on the digits the formatter writes. *)
Lemma int16_digits_format (s : string) (acc v : Z) :
  string_forall is_lower_hex s = true ->
  int16_digits s acc = Some v ->
  exists r, 0 <= r < 16 ^ Z.of_nat (String.length s) /\
            v = acc * 16 ^ Z.of_nat (String.length s) + r /\
            hex_fixed (String.length s) r = s.
Proof.
  revert acc; induction s as [|c s IH]; intros acc Hs E.
  - exists 0. simpl in *. injection E as <-. repeat split; lia.
  - cbn [string_forall] in Hs. apply andb_true_iff in Hs as [Hc Hs].
    unfold is_lower_hex in Hc. cbn [int16_digits] in E.
    destruct (hexval c) as [d|] eqn:Ed; [|discriminate].
    apply Ascii.eqb_eq in Hc. apply hexval_range in Ed.
    destruct (IH _ Hs E) as (r & Hr & -> & Ef).
    assert (Hp : 0 < 16 ^ Z.of_nat (String.length s))
      by (apply Z.pow_pos_nonneg; lia).
    exists (d * 16 ^ Z.of_nat (String.length s) + r).
    cbn [String.length]. rewrite Nat2Z.inj_succ, Z.pow_succ_r by lia.
    split; [nia|]. split; [lia|].
    rewrite hex_fixed_cons by lia.
    rewrite Z.mod_small by lia. now rewrite Hc, Ef.
Qed.

(** ** The number of hexadecimal digits *)

Lemma pow16_pow2 (w : Z) : 0 <= w -> 16 ^ w = 2 ^ (4 * w).
Proof. intros H. rewrite Z.pow_mul_r by lia. reflexivity. Qed.

Lemma hexlen_upper (n : Z) : 0 <= n -> n < 16 ^ Z.of_nat (hexlen n).
Proof.
  intros Hn. unfold hexlen.
  assert (Hl : 0 <= Z.log2 n) by apply Z.log2_nonneg.
  assert (Hq : 0 <= Z.log2 n / 4) by (apply Z.div_pos; lia).
  rewrite Nat2Z.inj_succ, Z2Nat.id by lia.
  rewrite pow16_pow2 by lia.
  destruct (Z.eq_dec n 0) as [->|Hnz].
  - apply Z.pow_pos_nonneg; lia.
  - apply Z.lt_le_trans with (2 ^ Z.succ (Z.log2 n)).
    + apply Z.log2_spec; lia.
    + apply Z.pow_le_mono_r; [lia|].
      assert (H4 := Z.mod_pos_bound (Z.log2 n) 4 ltac:(lia)).
      assert (Hd := Z.div_mod (Z.log2 n) 4 ltac:(lia)). lia.
Qed.

Lemma hexlen_le (n : Z) (w : nat) :
  (1 <= w)%nat -> 0 <= n < 16 ^ Z.of_nat w -> (hexlen n <= w)%nat.
Proof.
  intros Hw [Hn Hlt]. unfold hexlen.
  destruct (Z.eq_dec n 0) as [->|Hnz]; [simpl; lia|].
  rewrite pow16_pow2 in Hlt by lia.
  assert (Hl : Z.log2 n < 4 * Z.of_nat w) by (apply Z.log2_lt_pow2; lia).
  assert (Hq : Z.log2 n / 4 < Z.of_nat w)
    by (apply Z.div_lt_upper_bound; lia).
  assert (0 <= Z.log2 n / 4) by (apply Z.div_pos; [apply Z.log2_nonneg | lia]).
  lia.
Qed.

Lemma hexlen_pos (n : Z) : (1 <= hexlen n)%nat.
Proof. unfold hexlen; lia. Qed.

Lemma format_0x_nonneg (w : nat) (n : Z) :
  0 <= n -> format_0x w n = hex_fixed (Nat.max w (hexlen n)) n.
Proof.
  intros Hn. unfold format_0x.
  destruct (Z.ltb_spec n 0); [lia | reflexivity].
Qed.

(** Below [16^w] the zero-padded form has exactly [w] digits. *)
Lemma format_0x_fixed (w : nat) (n : Z) :
  (1 <= w)%nat -> 0 <= n < 16 ^ Z.of_nat w -> format_0x w n = hex_fixed w n.
Proof.
  intros Hw Hn. rewrite format_0x_nonneg by lia.
  assert (H := hexlen_le n w Hw Hn).
  now rewrite Nat.max_l by lia.
Qed.

Lemma format_x_length (n : Z) :
  0 <= n -> String.length (format_x n) = hexlen n.
Proof.
  intros Hn. unfold format_x. rewrite format_0x_nonneg by lia.
  now rewrite hex_fixed_length, Nat.max_0_l.
Qed.

(** ** [range] *)

Lemma in_range_items (start stop step x : Z) :
  0 < step ->
  In x (range_items start stop step) <->
  start <= x < stop /\ (x - start) mod step = 0.
Proof.
  intros Hs. unfold range_items, range_len.
  destruct (Z.ltb_spec 0 step) as [_|]; [|lia].
  set (q := (stop - start + step - 1) / step).
  assert (Hq : step * q <= stop - start + step - 1 < step * (q + 1)).
  { unfold q.
    assert (Hd := Z.div_mod (stop - start + step - 1) step ltac:(lia)).
    assert (Hm := Z.mod_pos_bound (stop - start + step - 1) step Hs). lia. }
  rewrite in_map_iff. split.
  - intros (i & <- & Hi). apply in_seq in Hi.
    replace (start + Z.of_nat i * step - start) with (Z.of_nat i * step) by lia.
    rewrite Z.mod_mul by lia. split; [|reflexivity].
    assert (Z.of_nat i < q) by lia. nia.
  - intros ([Hlo Hhi] & Hmod).
    apply Z.mod_divide in Hmod; [|lia]. destruct Hmod as [i Hi].
    assert (0 <= i) by nia.
    exists (Z.to_nat i). split; [rewrite Z2Nat.id by lia; lia|].
    apply in_seq. assert (i < q) by nia. lia.
Qed.

Lemma in_range2 (lo hi x : Z) : In x (range2 lo hi) <-> lo <= x < hi.
Proof.
  unfold range2. rewrite in_range_items by lia.
  rewrite Z.mod_1_r. tauto.
Qed.

Lemma NoDup_range_items (start stop step : Z) :
  step <> 0 -> NoDup (range_items start stop step).
Proof.
  intros Hs. unfold range_items.
  apply NoDup_map_NoDup_ForallPairs; [|apply seq_NoDup].
  intros i j _ _ E. nia.
Qed.

Lemma range_len_multiple (m : nat) (step : Z) :
  0 < step -> range_len 0 (Z.of_nat m * step) step = m.
Proof.
  intros Hs. unfold range_len.
  destruct (Z.ltb_spec 0 step) as [_|]; [|lia].
  replace (Z.of_nat m * step - 0 + step - 1)
    with (step - 1 + Z.of_nat m * step) by lia.
  rewrite Z.div_add by lia. rewrite Z.div_small by lia. lia.
Qed.

Lemma range2_unfold (lo : Z) (len : nat) :
  range2 lo (lo + Z.of_nat len) = map (fun i => lo + Z.of_nat i) (seq 0 len).
Proof.
  unfold range2, range_items, range_len. simpl.
  replace (lo + Z.of_nat len - lo + 1 - 1) with (Z.of_nat len) by lia.
  rewrite Z.div_1_r, Nat2Z.id.
  apply map_ext. intros i. lia.
Qed.

Lemma seq_offset (m k : nat) : seq m k = map (fun i => (m + i)%nat) (seq 0 k).
Proof.
  induction k as [|k IH]; [reflexivity|].
  rewrite !seq_S, map_app, <- IH. reflexivity.
Qed.

Lemma range2_app (lo : Z) (m k : nat) :
  range2 lo (lo + Z.of_nat m) ++ range2 (lo + Z.of_nat m) (lo + Z.of_nat m + Z.of_nat k)
  = range2 lo (lo + Z.of_nat (m + k)).
Proof.
  rewrite !range2_unfold, seq_app, map_app. f_equal.
  simpl. rewrite (seq_offset m k), !map_map.
  apply map_ext. intros i. lia.
Qed.

(** Consecutive blocks of [size] numbers, put end to end. *)
Lemma concat_blocks (size count : nat) :
  List.concat (map (fun low => range2 low (low + Z.of_nat size))
              (range_items 0 (Z.of_nat count * Z.of_nat size) (Z.of_nat size)))
  = range2 0 (Z.of_nat count * Z.of_nat size).
Proof.
  destruct size as [|size].
  { rewrite Z.mul_0_r. reflexivity. }
  unfold range_items at 1. rewrite range_len_multiple by lia.
  rewrite map_map. induction count as [|count IH].
  - reflexivity.
  - rewrite seq_S, map_app, concat_app, IH. simpl.
    rewrite app_nil_r.
    replace (Z.of_nat count * Z.pos (Pos.of_succ_nat size))
      with (0 + Z.of_nat (count * S size)) by lia.
    replace (Z.pos (Pos.of_succ_nat size)) with (Z.of_nat (S size)) by lia.
    rewrite range2_app.
    f_equal. lia.
Qed.

(** ** The derived constants *)

Lemma module_constants_positive (n : Z) :
  1 <= n ->
  exists g, module_constants n = Ok g /\ NUMBER_OF_BINS g = n /\
            PREFIX_LEN g = hexlen (n - 1) /\ well_formed g.
Proof.
  intros Hn. unfold module_constants, floordiv.
  destruct (Z.eqb_spec n 0) as [|_]; [lia|]. cbn [bind].
  eexists. split; [reflexivity|].
  unfold well_formed.
  cbn [NUMBER_OF_BINS PREFIX_LEN NUMBER_OF_PREFIXES BIN_SIZE].
  rewrite format_x_length by lia.
  assert (Hup := hexlen_upper (n - 1) ltac:(lia)).
  assert (Hpos := hexlen_pos (n - 1)).
  repeat split; try lia.
  apply Z.div_le_lower_bound; lia.
Qed.

Lemma pow2_pos (k : nat) : 1 <= 2 ^ Z.of_nat k.
Proof. assert (0 < 2 ^ Z.of_nat k) by (apply Z.pow_pos_nonneg; lia). lia. Qed.

Lemma module_constants_pow2 (n : Z) :
  is_power_of_two n ->
  exists g, module_constants n = Ok g /\ NUMBER_OF_BINS g = n /\
            PREFIX_LEN g = hexlen (n - 1) /\ well_formed g /\
            evenly_divided g.
Proof.
  intros [k ->].
  destruct (module_constants_positive _ (pow2_pos k))
    as (g & Eg & Hn & Hl & Hwf).
  exists g. repeat split; try assumption; try apply Hwf.
  destruct Hwf as (_ & Hlen & HN & HS & Hpos).
  unfold evenly_divided. rewrite HS, Hn, HN.
  assert (Hup := hexlen_upper (2 ^ Z.of_nat k - 1) ltac:(pose proof (pow2_pos k); lia)).
  rewrite <- Hl in Hup.
  rewrite pow16_pow2 in * by lia.
  assert (Hk : Z.of_nat k <= 4 * Z.of_nat (PREFIX_LEN g)).
  { apply (Z.pow_le_mono_r_iff 2); lia. }
  replace (4 * Z.of_nat (PREFIX_LEN g))
    with ((4 * Z.of_nat (PREFIX_LEN g) - Z.of_nat k) + Z.of_nat k) by lia.
  rewrite Z.pow_add_r by lia.
  rewrite Z.div_mul; [reflexivity|].
  pose proof (pow2_pos k); lia.
Qed.

(** ** Bin names *)

Lemma hex_digit_name_char (s : string) :
  string_forall is_hex_digit s = true -> string_forall is_name_char s = true.
Proof.
  induction s as [|c s IH]; simpl; [reflexivity|].
  intros H. apply andb_true_iff in H as [Hc Hs].
  rewrite (IH Hs). unfold is_name_char. now rewrite Hc.
Qed.

Lemma format_0x_name_chars (w : nat) (n : Z) :
  string_forall is_name_char (format_0x w n) = true.
Proof.
  unfold format_0x. destruct (n <? 0).
  - cbn [string_forall]. rewrite hex_digit_name_char by apply hex_fixed_digits.
    reflexivity.
  - apply hex_digit_name_char, hex_fixed_digits.
Qed.

Lemma bin_name_chars (g : Constants) (low high : Z) :
  string_forall is_name_char (_bin_name g low high) = true.
Proof.
  unfold _bin_name. destruct (low =? high).
  - apply format_0x_name_chars.
  - rewrite !string_forall_append, !format_0x_name_chars. reflexivity.
Qed.

(** No bin can be called like the delegating role. *)
Lemma bin_name_not_bins (g : Constants) (low high : Z) :
  _bin_name g low high <> "bins"%string.
Proof.
  intros E. assert (H := bin_name_chars g low high).
  rewrite E in H. discriminate.
Qed.

Lemma bin_name_inj (g : Constants) (low1 low2 : Z) :
  well_formed g ->
  0 <= low1 < NUMBER_OF_PREFIXES g -> 0 <= low2 < NUMBER_OF_PREFIXES g ->
  _bin_name g low1 (low1 + BIN_SIZE g - 1)
  = _bin_name g low2 (low2 + BIN_SIZE g - 1) ->
  low1 = low2.
Proof.
  intros (_ & Hlen & HN & _ & Hpos) H1 H2. unfold _bin_name.
  rewrite HN in H1, H2.
  rewrite (format_0x_fixed _ low1), (format_0x_fixed _ low2) by assumption.
  destruct (Z.eqb_spec low1 (low1 + BIN_SIZE g - 1));
    destruct (Z.eqb_spec low2 (low2 + BIN_SIZE g - 1)); try lia; intros E.
  - now apply hex_fixed_inj in E.
  - apply append_inv_length in E; [|now rewrite !hex_fixed_length].
    destruct E as [E _]. now apply hex_fixed_inj in E.
Qed.

(** ** The generator *)

Lemma generate_hash_bins_ok (g : Constants) :
  well_formed g ->
  generate_hash_bins g
  = Ok (map (hash_bin g) (range_items 0 (NUMBER_OF_PREFIXES g) (BIN_SIZE g))).
Proof.
  intros (_ & _ & _ & _ & Hpos). unfold generate_hash_bins, range3.
  destruct (Z.eqb_spec (BIN_SIZE g) 0); [lia | reflexivity].
Qed.

Lemma bin_names_NoDup (g : Constants) :
  well_formed g ->
  NoDup (map fst (map (hash_bin g)
                      (range_items 0 (NUMBER_OF_PREFIXES g) (BIN_SIZE g)))).
Proof.
  intros Hwf. rewrite map_map. cbn [hash_bin fst].
  assert (Hpos : 1 <= BIN_SIZE g) by apply Hwf.
  apply NoDup_map_NoDup_ForallPairs; [|apply NoDup_range_items; lia].
  intros a b Ha Hb E.
  apply in_range_items in Ha; [|lia]. apply in_range_items in Hb; [|lia].
  apply (bin_name_inj g); auto; lia.
Qed.

(** ** Encoding and hashing a path *)

Lemma encode_utf8_total (path : pystr) :
  encodable path = true -> exists data, encode_utf8 path = Ok data.
Proof.
  induction path as [|c path IH]; simpl; intros H; [eauto|].
  apply andb_true_iff in H as [Hc Hp].
  destruct (IH Hp) as [more ->].
  unfold encode_code_point.
  destruct (is_surrogate c); [discriminate|].
  destruct (c <? 128); [simpl; eauto|].
  destruct (c <? 2048); [simpl; eauto|].
  destruct (c <? 65536); simpl; eauto.
Qed.

Lemma encode_utf8_surrogate (path : pystr) :
  encodable path = false -> encode_utf8 path = Raise UnicodeEncodeError.
Proof.
  induction path as [|c path IH]; simpl; intros H; [discriminate|].
  apply andb_false_iff in H as [Hc|Hp].
  - apply negb_false_iff in Hc. unfold encode_code_point.
    assert (Hs := Hc). unfold is_surrogate in Hs.
    apply andb_true_iff in Hs as [Hlo Hhi].
    apply Z.leb_le in Hlo, Hhi.
    destruct (Z.ltb_spec c 128); [lia|].
    destruct (Z.ltb_spec c 2048); [lia|].
    destruct (Z.ltb_spec c 65536); [|lia].
    rewrite Hc. reflexivity.
  - rewrite (IH Hp). unfold encode_code_point.
    destruct (c <? 128); [reflexivity|].
    destruct (c <? 2048); [reflexivity|].
    destruct (c <? 65536); [|reflexivity].
    destruct (is_surrogate c); reflexivity.
Qed.

Lemma hexdigest_length (h : SHA256.hasher) :
  String.length (SHA256.hexdigest h) = 64%nat.
Proof.
  unfold SHA256.hexdigest. cbv zeta.
  rewrite !length_append, !hex_fixed_length. reflexivity.
Qed.

Lemma hexdigest_digits (h : SHA256.hasher) :
  string_forall is_hex_digit (SHA256.hexdigest h) = true.
Proof.
  unfold SHA256.hexdigest. cbv zeta.
  rewrite !string_forall_append, !hex_fixed_digits. reflexivity.
Qed.

Lemma hexdigest_lower (h : SHA256.hasher) :
  string_forall is_lower_hex (SHA256.hexdigest h) = true.
Proof.
  unfold SHA256.hexdigest. cbv zeta.
  rewrite !string_forall_append, !hex_fixed_lower. reflexivity.
Qed.

(** A non-empty slice of a digest parses, and to a number below
    [16^k] for a slice of [k] digits. *)
Lemma int16_digest_slice (k : nat) (h : SHA256.hasher) :
  (1 <= k)%nat ->
  exists p, int16 (slice_to k (SHA256.hexdigest h)) = Ok p /\
            0 <= p < 16 ^ Z.of_nat (Nat.min k 64).
Proof.
  intros Hk.
  assert (Hd := string_forall_slice _ k _ (hexdigest_digits h)).
  assert (Hl := slice_to_length k (SHA256.hexdigest h)).
  rewrite hexdigest_length in Hl.
  destruct (int16_digits_bound _ 0 Hd) as (p & Ep & Hp).
  rewrite Hl in Hp. exists p. split; [|lia].
  unfold int16. rewrite Ep.
  destruct (slice_to k (SHA256.hexdigest h)); [simpl in Hl; lia | reflexivity].
Qed.

(** What [find_hash_bin] computes on an encodable path. *)
Lemma find_hash_bin_spec (g : Constants) (path : pystr) :
  well_formed g -> encodable path = true ->
  exists digest p,
    target_name_hash path = Ok digest /\
    String.length digest = 64%nat /\
    int16 (slice_to (PREFIX_LEN g) digest) = Ok p /\
    0 <= p < NUMBER_OF_PREFIXES g /\
    find_hash_bin g path
    = Ok (_bin_name g (p - p mod BIN_SIZE g)
                      (p - p mod BIN_SIZE g + BIN_SIZE g - 1)).
Proof.
  intros (_ & Hlen & HN & _ & Hpos) Henc.
  destruct (encode_utf8_total path Henc) as [data Edata].
  unfold find_hash_bin, target_name_hash. rewrite Edata. cbn [bind].
  set (h := SHA256.update SHA256.new data).
  destruct (int16_digest_slice (PREFIX_LEN g) h Hlen) as (p & Ep & Hp).
  exists (SHA256.hexdigest h), p.
  split; [reflexivity|]. split; [apply hexdigest_length|].
  split; [exact Ep|]. split.
  - rewrite HN. split; [lia|].
    apply Z.lt_le_trans with (16 ^ Z.of_nat (Nat.min (PREFIX_LEN g) 64)); [lia|].
    apply Z.pow_le_mono_r; lia.
  - rewrite Ep. cbn [bind]. unfold pymod.
    destruct (Z.eqb_spec (BIN_SIZE g) 0); [lia | reflexivity].
Qed.

(** With at most 64 prefix digits, the prefix formatted as the generator
    formats it is the leading part of the digest itself. *)
Lemma digest_prefix_format (g : Constants) (path : pystr) (digest : string)
    (p : Z) :
  (1 <= PREFIX_LEN g <= 64)%nat ->
  target_name_hash path = Ok digest ->
  int16 (slice_to (PREFIX_LEN g) digest) = Ok p ->
  format_0x (PREFIX_LEN g) p = slice_to (PREFIX_LEN g) digest.
Proof.
  intros Hlen Ed Ep. unfold target_name_hash in Ed.
  destruct (encode_utf8 path) as [data|]; [|discriminate].
  cbn [bind] in Ed. cbv zeta in Ed.
  set (h := SHA256.update SHA256.new data) in *.
  injection Ed as <-.
  assert (Hlow := string_forall_slice _ (PREFIX_LEN g) _ (hexdigest_lower h)).
  assert (Hl := slice_to_length (PREFIX_LEN g) (SHA256.hexdigest h)).
  rewrite hexdigest_length, Nat.min_l in Hl by lia.
  set (s := slice_to (PREFIX_LEN g) (SHA256.hexdigest h)) in *.
  assert (Ed : int16_digits s 0 = Some p).
  { unfold int16 in Ep. destruct s; [discriminate|].
    destruct (int16_digits _ 0); [congruence | discriminate]. }
  destruct (int16_digits_format s 0 p Hlow Ed) as (r & Hr & -> & Ef).
  rewrite Hl in *. rewrite Z.mul_0_l, Z.add_0_l.
  rewrite format_0x_fixed by lia. exact Ef.
Qed.

(** The lower bound [find_hash_bin] computes is one the generator visits,
    and the prefix lies in that bin. *)
Lemma low_in_range (g : Constants) (p : Z) :
  well_formed g -> 0 <= p < NUMBER_OF_PREFIXES g ->
  let low := p - p mod BIN_SIZE g in
  In low (range_items 0 (NUMBER_OF_PREFIXES g) (BIN_SIZE g)) /\
  low <= p < low + BIN_SIZE g.
Proof.
  intros (_ & _ & _ & _ & Hpos) Hp low.
  assert (Hm := Z.mod_pos_bound p (BIN_SIZE g) ltac:(lia)).
  assert (Hle : p mod BIN_SIZE g <= p) by (apply Z.mod_le; lia).
  split; [|unfold low; lia].
  apply in_range_items; [lia|]. split; [unfold low; lia|].
  unfold low. rewrite Z.sub_0_r.
  rewrite Zminus_mod, Z.mod_mod, Z.sub_diag by lia.
  apply Z.mod_0_l. lia.
Qed.

Lemma prefixes_NoDup (g : Constants) :
  well_formed g ->
  NoDup (map (format_0x (PREFIX_LEN g)) (range2 0 (NUMBER_OF_PREFIXES g))).
Proof.
  intros (_ & Hlen & HN & _ & _).
  apply NoDup_map_NoDup_ForallPairs; [|apply NoDup_range_items; lia].
  intros a b Ha Hb. apply in_range2 in Ha, Hb. rewrite HN in Ha, Hb.
  rewrite !format_0x_fixed by assumption.
  now apply hex_fixed_inj.
Qed.

Lemma bins_by_index (g : Constants) (count : nat) :
  1 <= BIN_SIZE g ->
  NUMBER_OF_PREFIXES g = Z.of_nat count * BIN_SIZE g ->
  map (hash_bin g) (range_items 0 (NUMBER_OF_PREFIXES g) (BIN_SIZE g))
  = map (fun i => hash_bin g (Z.of_nat i * BIN_SIZE g)) (seq 0 count).
Proof.
  intros Hpos HN. unfold range_items.
  rewrite HN, range_len_multiple by lia.
  rewrite map_map. reflexivity.
Qed.

Lemma prefixes_concat (g : Constants) (count : nat) :
  1 <= BIN_SIZE g ->
  NUMBER_OF_PREFIXES g = Z.of_nat count * BIN_SIZE g ->
  List.concat
    (map snd (map (hash_bin g)
                  (range_items 0 (NUMBER_OF_PREFIXES g) (BIN_SIZE g))))
  = map (format_0x (PREFIX_LEN g)) (range2 0 (NUMBER_OF_PREFIXES g)).
Proof.
  intros Hpos HN. rewrite map_map. cbn [hash_bin snd].
  rewrite <- (map_map (fun low => range2 low (low + BIN_SIZE g))
                      (map (format_0x (PREFIX_LEN g)))).
  rewrite <- concat_map. f_equal.
  rewrite HN. rewrite <- (Z2Nat.id (BIN_SIZE g)) by lia.
  apply concat_blocks.
Qed.

(* ================================================================= *)
(** * The claims *)

(** C1. For every number of bins that is a power of two (it is then between
    1 and the number of prefixes), [generate_hash_bins] yields exactly that
    many bins; the i-th bin is the one of the range
    [[i * BIN_SIZE, i * BIN_SIZE + BIN_SIZE - 1]]; every prefix lies in
    exactly one of these ranges and no range leaves the prefix space; the
    prefix lists of the bins, put end to end, are the list of all prefixes
    in ascending order, without a duplicate. *)
Theorem generate_hash_bins_partition (n : Z) :
  is_power_of_two n ->
  exists g bins,
    module_constants n = Ok g /\
    PREFIX_LEN g = hexlen (n - 1) /\
    NUMBER_OF_PREFIXES g = 16 ^ Z.of_nat (PREFIX_LEN g) /\
    BIN_SIZE g * n = NUMBER_OF_PREFIXES g /\
    1 <= n <= NUMBER_OF_PREFIXES g /\
    generate_hash_bins g = Ok bins /\
    bins = map (fun i => hash_bin g (Z.of_nat i * BIN_SIZE g))
               (seq 0 (Z.to_nat n)) /\
    Z.of_nat (List.length bins) = n /\
    (forall p, 0 <= p < NUMBER_OF_PREFIXES g ->
       exists! i, 0 <= i < n /\
                  i * BIN_SIZE g <= p <= i * BIN_SIZE g + BIN_SIZE g - 1) /\
    (forall i p, 0 <= i < n ->
       i * BIN_SIZE g <= p <= i * BIN_SIZE g + BIN_SIZE g - 1 ->
       0 <= p < NUMBER_OF_PREFIXES g) /\
    List.concat (map snd bins)
    = map (format_0x (PREFIX_LEN g)) (range2 0 (NUMBER_OF_PREFIXES g)) /\
    NoDup (List.concat (map snd bins)).
Proof.
  intros Hpow.
  destruct (module_constants_pow2 n Hpow) as (g & Eg & Hn & Hlen & Hwf & Hev).
  assert (Hwf' := Hwf). destruct Hwf' as (Hn1 & _ & H16 & _ & Hpos).
  unfold evenly_divided in Hev. rewrite Hn in *.
  assert (HN : NUMBER_OF_PREFIXES g = Z.of_nat (Z.to_nat n) * BIN_SIZE g)
    by (rewrite Z2Nat.id; lia).
  exists g, (map (hash_bin g)
                 (range_items 0 (NUMBER_OF_PREFIXES g) (BIN_SIZE g))).
  split; [exact Eg|]. split; [exact Hlen|]. split; [exact H16|].
  split; [exact Hev|]. split; [nia|].
  split; [now apply generate_hash_bins_ok|].
  split; [now apply bins_by_index|].
  split.
  { rewrite (bins_by_index g _ Hpos HN), length_map, length_seq. lia. }
  split.
  { intros p Hp. exists (p / BIN_SIZE g).
    assert (Hd := Z.div_mod p (BIN_SIZE g) ltac:(lia)).
    assert (Hm := Z.mod_pos_bound p (BIN_SIZE g) ltac:(lia)).
    split.
    - split; [|nia]. split; [apply Z.div_pos; lia|].
      apply Z.div_lt_upper_bound; lia.
    - intros j [Hj Hr]. nia. }
  split; [intros i p Hi Hr; nia|].
  split; [now apply (prefixes_concat g (Z.to_nat n))|].
  rewrite (prefixes_concat g (Z.to_nat n)) by assumption.
  now apply prefixes_NoDup.
Qed.

Lemma generate_hash_bins_partition_witness :
  is_power_of_two 32 /\
  exists g bins,
    module_constants 32 = Ok g /\ generate_hash_bins g = Ok bins /\
    Z.of_nat (List.length bins) = 32.
Proof.
  assert (H : is_power_of_two 32) by (exists 5%nat; reflexivity).
  split; [exact H|].
  destruct (generate_hash_bins_partition 32 H)
    as (g & bins & Eg & _ & _ & _ & _ & Eb & _ & El & _).
  exists g, bins. auto.
Defined.

Lemma module_constants_32 : module_constants configured_bins = Ok constants_32.
Proof. reflexivity. Qed.

(** Name membership needs only a positive number of bins. *)
Lemma find_hash_bin_generated (g : Constants) (path : pystr) :
  well_formed g -> encodable path = true ->
  exists digest p prefixes name,
    target_name_hash path = Ok digest /\
    int16 (slice_to (PREFIX_LEN g) digest) = Ok p /\
    find_hash_bin g path = Ok name /\
    In (name, prefixes)
       (map (hash_bin g)
            (range_items 0 (NUMBER_OF_PREFIXES g) (BIN_SIZE g))) /\
    In (format_0x (PREFIX_LEN g) p) prefixes.
Proof.
  intros Hwf Henc.
  destruct (find_hash_bin_spec g path Hwf Henc)
    as (digest & p & Ed & _ & Ep & Hp & Ef).
  destruct (low_in_range g p Hwf Hp) as [Hin Hlow].
  exists digest, p,
    (map (format_0x (PREFIX_LEN g))
         (range2 (p - p mod BIN_SIZE g)
                 (p - p mod BIN_SIZE g + BIN_SIZE g))),
    (_bin_name g (p - p mod BIN_SIZE g)
               (p - p mod BIN_SIZE g + BIN_SIZE g - 1)).
  repeat split; try assumption.
  - apply in_map_iff. exists (p - p mod BIN_SIZE g). split; [reflexivity|exact Hin].
  - apply in_map, in_range2. exact Hlow.
Qed.

(** C2 (as stated, refuted). A path that holds a lone surrogate code point is
    a non-empty string, and [find_hash_bin] returns no bin name for it: the
    strict UTF-8 encoding of line 119 raises. *)
Lemma find_hash_bin_surrogate_raises :
  is_power_of_two configured_bins /\
  [0xD800] <> ([] : pystr) /\
  exists g, module_constants configured_bins = Ok g /\
            find_hash_bin g [0xD800] = Raise UnicodeEncodeError.
Proof.
  split; [exists 5%nat; reflexivity|].
  split; [discriminate|].
  exists constants_32. split; reflexivity.
Qed.

(** C2 (amended). For a number of bins that is a power of two and every path
    the UTF-8 codec can encode, [find_hash_bin] returns a name; the name is
    the name of a generated bin, whose prefix list holds the hash prefix of
    the path (with at most 64 prefix digits: the leading digits of the
    digest, as they stand); and the generated names are pairwise distinct,
    so the name belongs to one bin only. *)
Theorem find_hash_bin_in_generated (n : Z) (path : pystr) :
  is_power_of_two n -> encodable path = true ->
  exists g bins digest p prefixes name,
    module_constants n = Ok g /\
    generate_hash_bins g = Ok bins /\
    target_name_hash path = Ok digest /\
    int16 (slice_to (PREFIX_LEN g) digest) = Ok p /\
    find_hash_bin g path = Ok name /\
    In name (map fst bins) /\
    NoDup (map fst bins) /\
    In (name, prefixes) bins /\
    In (format_0x (PREFIX_LEN g) p) prefixes /\
    ((PREFIX_LEN g <= 64)%nat ->
     In (slice_to (PREFIX_LEN g) digest) prefixes).
Proof.
  intros Hpow Henc.
  destruct (module_constants_pow2 n Hpow) as (g & Eg & _ & _ & Hwf & _).
  destruct (find_hash_bin_generated g path Hwf Henc)
    as (digest & p & prefixes & name & Ed & Ep & Ef & Hin & Hp).
  exists g, (map (hash_bin g)
                 (range_items 0 (NUMBER_OF_PREFIXES g) (BIN_SIZE g))),
    digest, p, prefixes, name.
  repeat split; try assumption.
  - now apply generate_hash_bins_ok.
  - apply in_map_iff. exists (name, prefixes). auto.
  - now apply bin_names_NoDup.
  - intros H64. rewrite <- (digest_prefix_format g path digest p); auto.
    split; [apply Hwf | exact H64].
Qed.

Lemma find_hash_bin_in_generated_witness :
  exists name bins,
    find_hash_bin constants_32 this_target_path = Ok name /\
    generate_hash_bins constants_32 = Ok bins /\
    In name (map fst bins).
Proof.
  destruct (find_hash_bin_in_generated configured_bins this_target_path
              ltac:(exists 5%nat; reflexivity) eq_refl)
    as (g & bins & digest & p & prefixes & name & Eg & Eb & _ & _ & Ef & Hin & _).
  rewrite module_constants_32 in Eg. injection Eg as <-.
  exists name, bins. auto.
Defined.

(** C7. With 32 bins (prefix length 2, bin size 8), a path whose digest
    starts with the two digits [85] is assigned to the bin [80-87]: the
    lower bound is [0x85 - 0x85 mod 8 = 0x80], the upper one
    [0x80 + 8 - 1 = 0x87]. *)
Theorem find_hash_bin_85 (path : pystr) (digest : string) :
  target_name_hash path = Ok digest ->
  slice_to 2 digest = "85"%string ->
  module_constants configured_bins = Ok constants_32 /\
  find_hash_bin constants_32 path = Ok "80-87"%string /\
  0x85 - 0x85 mod BIN_SIZE constants_32 = 0x80 /\
  0x80 + BIN_SIZE constants_32 - 1 = 0x87 /\
  _bin_name constants_32 0x80 0x87 = "80-87"%string.
Proof.
  intros Ed Es. split; [reflexivity|]. split; [|repeat split].
  unfold find_hash_bin. rewrite Ed. cbn [bind].
  change (PREFIX_LEN constants_32) with 2%nat. rewrite Es.
  reflexivity.
Qed.

Lemma find_hash_bin_85_witness :
  module_constants configured_bins = Ok constants_32 /\
  find_hash_bin constants_32 this_target_path = Ok "80-87"%string.
Proof.
  split; [reflexivity|].
  apply (find_hash_bin_85 this_target_path
           "85e1a6c06305bd9c1e15c7ae565fd16ea304bfc85dec0cf862e46ed778c34021").
  - vm_compute. reflexivity.
  - reflexivity.
Defined.

(** C9. One bin: the prefix length is 1, there are 16 prefixes, the bin size
    is 16, and the generator yields the single bin [0-f] with all sixteen
    one-digit prefixes. *)
Theorem single_bin :
  exists g,
    module_constants 1 = Ok g /\
    PREFIX_LEN g = 1%nat /\ NUMBER_OF_PREFIXES g = 16 /\ BIN_SIZE g = 16 /\
    generate_hash_bins g
    = Ok [("0-f"%string,
           ["0"; "1"; "2"; "3"; "4"; "5"; "6"; "7";
            "8"; "9"; "a"; "b"; "c"; "d"; "e"; "f"]%string)] /\
    hash_bin g 0 = (_bin_name g 0 15, map (format_0x 1) (range2 0 16)).
Proof.
  eexists. split; [reflexivity|]. repeat split.
Qed.

(** C10 (as stated, refuted). [find_hash_bin] is not total on all strings:
    on a string with a lone surrogate the encoding step raises. *)
Lemma find_hash_bin_not_total :
  module_constants configured_bins = Ok constants_32 /\
  find_hash_bin constants_32 (str "a" ++ [0xDFFF] ++ str ".py")
  = Raise UnicodeEncodeError.
Proof. split; reflexivity. Qed.

(** C10 (amended). For a positive number of bins, [find_hash_bin] returns a
    bin name for every string the UTF-8 codec can encode, the empty string
    included: the digest has 64 hexadecimal digits, its leading digits parse
    to a prefix in [[0, NUMBER_OF_PREFIXES - 1]], the bin size is positive,
    and the name is the one of the range [[low, high]] around the prefix,
    with [low] a multiple of the bin size.  On every other string, one with
    a surrogate code point, it raises [UnicodeEncodeError]. *)
Theorem find_hash_bin_total (n : Z) (path : pystr) :
  1 <= n ->
  exists g,
    module_constants n = Ok g /\
    (encodable path = false ->
     find_hash_bin g path = Raise UnicodeEncodeError) /\
    (encodable path = true ->
     exists digest p,
       target_name_hash path = Ok digest /\
       String.length digest = 64%nat /\
       string_forall is_hex_digit digest = true /\
       int16 (slice_to (PREFIX_LEN g) digest) = Ok p /\
       0 <= p <= NUMBER_OF_PREFIXES g - 1 /\
       0 < BIN_SIZE g /\
       let low := p - p mod BIN_SIZE g in
       let high := low + BIN_SIZE g - 1 in
       find_hash_bin g path = Ok (_bin_name g low high) /\
       0 <= low <= p /\ p <= high /\ low mod BIN_SIZE g = 0).
Proof.
  intros Hn.
  destruct (module_constants_positive n Hn) as (g & Eg & _ & _ & Hwf).
  exists g. split; [exact Eg|]. split.
  { intros Henc. unfold find_hash_bin, target_name_hash.
    now rewrite (encode_utf8_surrogate path Henc). }
  intros Henc.
  destruct (find_hash_bin_spec g path Hwf Henc)
    as (digest & p & Ed & Hl & Ep & Hp & Ef).
  destruct (low_in_range g p Hwf Hp) as [Hin Hlow].
  assert (Hpos : 1 <= BIN_SIZE g) by apply Hwf.
  apply in_range_items in Hin; [|lia].
  exists digest, p. repeat split; try assumption; try lia.
  - unfold target_name_hash in Ed.
    destruct (encode_utf8 path); [|discriminate].
    injection Ed as <-. apply hexdigest_digits.
  - rewrite Z.sub_0_r in Hin. apply Hin.
Qed.

Lemma find_hash_bin_total_witness :
  exists name, find_hash_bin constants_32 [] = Ok name.
Proof.
  assert (Hn : 1 <= configured_bins) by (unfold configured_bins; lia).
  destruct (find_hash_bin_total configured_bins [] Hn) as (g & Eg & _ & H).
  destruct (H eq_refl) as (digest & p & _ & _ & _ & _ & _ & _ & Ef & _).
  rewrite module_constants_32 in Eg. injection Eg as <-.
  eexists. exact Ef.
Defined.

(** ** Dictionaries *)

#[global] Instance string_DictKeyLaws : DictKeyLaws string.
Proof. constructor. apply String.eqb_eq. Qed.

Lemma pystr_eqb_eq (a b : pystr) : pystr_eqb a b = true <-> a = b.
Proof.
  revert b; induction a as [|x a IH]; intros [|y b]; simpl;
    try (split; congruence).
  rewrite andb_true_iff, Z.eqb_eq, IH. split.
  - intros [-> ->]. reflexivity.
  - intros E. injection E as -> ->. auto.
Qed.

#[global] Instance pystr_DictKeyLaws : DictKeyLaws pystr.
Proof. constructor. apply pystr_eqb_eq. Qed.

Section DictFacts.
Context {K V : Type} `{DictKeyLaws K}.
Implicit Types (d : Dict.t K V) (k : K) (v : V).

Lemma key_eqb_spec k k' : reflect (k = k') (key_eqb k k').
Proof. apply iff_reflect. symmetry. apply key_eqb_eq. Qed.

Lemma key_eqb_refl k : key_eqb k k = true.
Proof. destruct (key_eqb_spec k k); congruence. Qed.

Lemma key_eqb_neq k k' : k <> k' -> key_eqb k k' = false.
Proof. destruct (key_eqb_spec k k'); congruence. Qed.

Lemma get_set_same d k v : Dict.get (Dict.set d k v) k = Some v.
Proof.
  induction d as [|[k' v'] d IH]; simpl.
  - now rewrite key_eqb_refl.
  - destruct (key_eqb_spec k' k) as [->|Hne]; simpl.
    + now rewrite key_eqb_refl.
    + now rewrite key_eqb_neq.
Qed.

Lemma get_set_other d k k' v :
  k' <> k -> Dict.get (Dict.set d k v) k' = Dict.get d k'.
Proof.
  intros Hne. induction d as [|[k0 v0] d IH]; simpl.
  - now rewrite key_eqb_neq by congruence.
  - destruct (key_eqb_spec k0 k) as [->|Hne0]; simpl.
    + now rewrite key_eqb_neq by congruence.
    + now rewrite IH.
Qed.

Lemma get_in_keys d k : Dict.get d k <> None <-> In k (Dict.keys d).
Proof.
  induction d as [|[k0 v0] d IH]; simpl; [tauto|].
  destruct (key_eqb_spec k0 k) as [->|Hne].
  - split; [auto | discriminate].
  - rewrite IH. split; [auto | intros [E|Hin]; [contradiction | auto]].
Qed.

(** Assigning to a key the dictionary has keeps every key where it is. *)
Lemma keys_set_present d k v :
  Dict.get d k <> None -> Dict.keys (Dict.set d k v) = Dict.keys d.
Proof.
  induction d as [|[k0 v0] d IH]; simpl; [congruence|].
  destruct (key_eqb_spec k0 k) as [->|Hne]; simpl; [reflexivity|].
  intros Hd. now rewrite (IH Hd).
Qed.

(** Assigning to a new key appends it. *)
Lemma set_fresh d k v :
  Dict.get d k = None -> Dict.set d k v = d ++ [(k, v)].
Proof.
  induction d as [|[k0 v0] d IH]; simpl; [reflexivity|].
  destruct (key_eqb_spec k0 k) as [->|Hne]; [discriminate|].
  intros Hd. now rewrite (IH Hd).
Qed.

Lemma get_not_in_keys d k : ~ In k (Dict.keys d) -> Dict.get d k = None.
Proof.
  intros Hn. destruct (Dict.get d k) eqn:E; [|reflexivity].
  exfalso. apply Hn, get_in_keys. congruence.
Qed.
End DictFacts.

(** ** The delegation graph in closed form *)

Lemma map_snd_enumerate_from {A : Type} (l : list A) (start : nat) :
  map snd (combine (seq start (List.length l)) l) = l.
Proof.
  revert start; induction l as [|x l IH]; intros start; simpl;
    [reflexivity | now rewrite IH].
Qed.

Lemma map_snd_enumerate {A : Type} (l : list A) : map snd (enumerate l) = l.
Proof. apply map_snd_enumerate_from. Qed.

Section BuildFacts.
Variable generate_ed25519_key : nat -> SSlibKey.t.
Variable utcnow : nat -> Z.

Lemma provision_keys_eq :
  provision_keys generate_ed25519_key
  = [("bin-n"%string, generate_ed25519_key 0%nat);
     ("bins"%string, generate_ed25519_key 1%nat)].
Proof. reflexivity. Qed.

Lemma delegate_bin_fresh (keys : Dict.t string SSlibKey.t) (k : SSlibKey.t)
    (delegated : Dict.t string DelegatedRole.t)
    (children : Dict.t string Metadata.t)
    (item : nat * (string * list string)) :
  getitem keys "bin-n" = Ok k ->
  fst (snd item) <> "bins"%string ->
  ~ In (fst (snd item)) (Dict.keys delegated) ->
  ~ In (fst (snd item)) (Dict.keys children) ->
  delegate_bin utcnow keys
    (("bins"%string, bins_role utcnow k delegated) :: children) item
  = Ok (("bins"%string,
         bins_role utcnow k (delegated ++ [delegated_role k (snd item)]))
          :: children ++ [bin_role utcnow item]).
Proof.
  destruct item as [i [name prefixes]]. cbn [fst snd].
  intros Hk Hbins Hd Hc. unfold delegate_bin. rewrite Hk. cbn [bind].
  unfold getitem. cbn [Dict.get key_eqb string_DictKey].
  change (String.eqb "bins" "bins") with true. cbn iota.
  cbn [bind bins_role Metadata.signed Targets.delegations].
  assert (E : String.eqb "bins" name = false)
    by (apply String.eqb_neq; congruence).
  cbn [Dict.set key_eqb string_DictKey Metadata.signed Metadata.signatures
       Targets.version Targets.spec_version Targets.expires Targets.targets
       Delegations.keys Delegations.roles].
  change (String.eqb "bins" "bins") with true. cbn iota.
  cbn [Dict.set key_eqb string_DictKey]. rewrite E.
  rewrite (set_fresh delegated) by now apply get_not_in_keys.
  rewrite (set_fresh children) by now apply get_not_in_keys.
  reflexivity.
Qed.

Lemma delegation_loop (keys : Dict.t string SSlibKey.t) (k : SSlibKey.t)
    (items : list (nat * (string * list string))) :
  getitem keys "bin-n" = Ok k ->
  NoDup (map (fun item => fst (snd item)) items) ->
  forall delegated children,
    (forall item, In item items ->
       fst (snd item) <> "bins"%string /\
       ~ In (fst (snd item)) (Dict.keys delegated) /\
       ~ In (fst (snd item)) (Dict.keys children)) ->
    for_each (delegate_bin utcnow keys) items
      (("bins"%string, bins_role utcnow k delegated) :: children)
    = Ok (("bins"%string,
           bins_role utcnow k
             (delegated ++ map (fun item => delegated_role k (snd item)) items))
            :: children ++ map (bin_role utcnow) items).
Proof.
  intros Hk. induction items as [|item items IH]; intros Hnd delegated children Hfresh.
  - simpl. now rewrite !app_nil_r.
  - cbn [for_each map] in *. inversion Hnd as [|? ? Hnotin Hnd']; subst.
    destruct (Hfresh item (or_introl eq_refl)) as (Hb & Hd & Hc).
    rewrite (delegate_bin_fresh keys k) by assumption. cbn [bind].
    rewrite IH; [now rewrite <- !app_assoc | assumption |].
    intros item' Hin. destruct (Hfresh item' (or_intror Hin)) as (Hb' & Hd' & Hc').
    split; [assumption|].
    assert (Hne : fst (snd item') <> fst (snd item)).
    { intros E. apply Hnotin. rewrite <- E.
      apply (in_map (fun it => fst (snd it))), Hin. }
    unfold Dict.keys in *. rewrite !map_app, !in_app_iff. cbn.
    split; intros [?|[?|[]]]; auto.
Qed.

(** Lines 151-194 for a positive number of bins: the delegating role
    with one entry per generated bin, in generation order, followed by one
    empty delegated role per bin, in the same order. *)
Lemma build_delegation_closed (g : Constants) :
  well_formed g ->
  let bins := map (hash_bin g)
                  (range_items 0 (NUMBER_OF_PREFIXES g) (BIN_SIZE g)) in
  let k := generate_ed25519_key 0%nat in
  build_delegation utcnow g (provision_keys generate_ed25519_key)
  = Ok (("bins"%string, bins_role utcnow k (map (delegated_role k) bins))
          :: map (bin_role utcnow) (enumerate bins)).
Proof.
  intros Hwf bins k. unfold build_delegation.
  rewrite (generate_hash_bins_ok g Hwf). fold bins.
  rewrite provision_keys_eq.
  change (create_bins_role utcnow _)
    with (Ok [("bins"%string, bins_role utcnow k [])]).
  cbn [bind].
  rewrite (delegation_loop _ k); try reflexivity.
  - cbn [app]. rewrite <- (map_map snd (delegated_role k)).
    now rewrite map_snd_enumerate.
  - rewrite <- (map_map snd fst), map_snd_enumerate.
    now apply bin_names_NoDup.
  - intros [i bin] Hin. cbn [fst snd Dict.keys map].
    apply (in_map snd) in Hin. rewrite map_snd_enumerate in Hin.
    cbn [snd] in Hin. apply in_map_iff in Hin as (low & <- & _).
    cbn [hash_bin fst]. split; [apply bin_name_not_bins | auto].
Qed.
End BuildFacts.

(** ** Target insertion and signing *)

Lemma add_target_ok (g : Constants) (roles : Dict.t string Metadata.t)
    (path : pystr) (info : TargetFile.t) (bin : string) (role : Metadata.t) :
  find_hash_bin g path = Ok bin ->
  Dict.get roles bin = Some role ->
  add_target g roles path info
  = Ok (Dict.set roles bin (set_target role path info)).
Proof.
  intros Ef Er. unfold add_target. rewrite Ef. cbn [bind].
  unfold getitem. now rewrite Er.
Qed.

Lemma add_target_inv (g : Constants) (roles roles' : Dict.t string Metadata.t)
    (path : pystr) (info : TargetFile.t) :
  add_target g roles path info = Ok roles' ->
  exists bin role,
    find_hash_bin g path = Ok bin /\ Dict.get roles bin = Some role /\
    roles' = Dict.set roles bin (set_target role path info).
Proof.
  unfold add_target, getitem. intros E.
  apply bind_Ok_inv in E as (bin & Ef & E).
  destruct (Dict.get roles bin) as [role|] eqn:Er; [|discriminate].
  injection E as <-. eauto.
Qed.

Lemma find_hash_bin_not_bins (g : Constants) (path : pystr) (bin : string) :
  find_hash_bin g path = Ok bin -> bin <> "bins"%string.
Proof.
  unfold find_hash_bin. intros E.
  apply bind_Ok_inv in E as (digest & _ & E).
  apply bind_Ok_inv in E as (p & _ & E).
  apply bind_Ok_inv in E as (r & _ & E).
  injection E as <-. apply bin_name_not_bins.
Qed.

Lemma signed_items_keys (generate_ed25519_key : nat -> SSlibKey.t)
    (ed25519_sign : SSlibKey.t -> Targets.t -> string)
    (d : Dict.t string Metadata.t) :
  Dict.keys (map (signed_item generate_ed25519_key ed25519_sign) d)
  = Dict.keys d.
Proof. unfold Dict.keys. rewrite map_map. reflexivity. Qed.

Lemma bin_roles_keys (utcnow : nat -> Z) (bins : list (string * list string)) :
  Dict.keys (map (bin_role utcnow) (enumerate bins)) = map fst bins.
Proof.
  unfold Dict.keys. rewrite map_map. cbn [bin_role fst].
  rewrite <- (map_map snd fst). now rewrite map_snd_enumerate.
Qed.

Section ScriptFacts.
Variable generate_ed25519_key : nat -> SSlibKey.t.
Variable utcnow : nat -> Z.
Variable ed25519_sign : SSlibKey.t -> Targets.t -> string.
Variable target_file_info : TargetFile.t.
Variable TMP_DIR : string.

Lemma sign_role_closed (item : string * Metadata.t) :
  sign_role ed25519_sign (provision_keys generate_ed25519_key) item
  = Ok (signed_item generate_ed25519_key ed25519_sign item).
Proof.
  rewrite provision_keys_eq. destruct item as [name role].
  unfold sign_role, signed_item, signing_key. cbn [fst snd].
  destruct (String.eqb name "bins"); reflexivity.
Qed.

Lemma sign_and_persist_loop (roles done : Dict.t string Metadata.t)
    (written : list (string * Metadata.t)) :
  for_each
    (fun done item =>
       item' <- sign_role ed25519_sign (provision_keys generate_ed25519_key)
                          item ;;
       Ok (fst done ++ [item'], snd done ++ [persisted TMP_DIR item']))
    roles (done, written)
  = Ok (done ++ map (signed_item generate_ed25519_key ed25519_sign) roles,
        written
          ++ map (persisted TMP_DIR)
                 (map (signed_item generate_ed25519_key ed25519_sign) roles)).
Proof.
  revert done written; induction roles as [|item roles IH]; intros done written.
  - simpl. now rewrite !app_nil_r.
  - cbn [for_each map]. rewrite sign_role_closed. cbn [bind fst snd].
    rewrite IH. now rewrite <- !app_assoc.
Qed.

Lemma sign_and_persist_closed (roles : Dict.t string Metadata.t) :
  sign_and_persist ed25519_sign TMP_DIR (provision_keys generate_ed25519_key)
                   roles
  = Ok (map (signed_item generate_ed25519_key ed25519_sign) roles,
        map (persisted TMP_DIR)
            (map (signed_item generate_ed25519_key ed25519_sign) roles)).
Proof. unfold sign_and_persist. now rewrite sign_and_persist_loop. Qed.

(** The whole script for a positive number of bins and an encodable
    path: it completes, and its result is the built graph with the target
    inserted into the bin of the path and every role signed. *)
Lemma script_closed (n : Z) (path : pystr) :
  1 <= n -> encodable path = true ->
  exists g bin role,
    module_constants n = Ok g /\ well_formed g /\
    find_hash_bin g path = Ok bin /\
    let bins := map (hash_bin g)
                    (range_items 0 (NUMBER_OF_PREFIXES g) (BIN_SIZE g)) in
    let k := generate_ed25519_key 0%nat in
    let built := ("bins"%string,
                  bins_role utcnow k (map (delegated_role k) bins))
                   :: map (bin_role utcnow) (enumerate bins) in
    In bin (map fst bins) /\
    Dict.get built bin = Some role /\
    let final := map (signed_item generate_ed25519_key ed25519_sign)
                     (Dict.set built bin
                               (set_target role path target_file_info)) in
    script generate_ed25519_key utcnow ed25519_sign target_file_info TMP_DIR
           n path
    = Ok {| constants := g;
            keys := provision_keys generate_ed25519_key;
            roles := final;
            files := map (persisted TMP_DIR) final |}.
Proof.
  intros Hn Henc.
  destruct (module_constants_positive n Hn) as (g & Eg & _ & _ & Hwf).
  destruct (find_hash_bin_generated g path Hwf Henc)
    as (digest & p & prefixes & bin & _ & _ & Ef & Hin & _).
  set (bins := map (hash_bin g)
                   (range_items 0 (NUMBER_OF_PREFIXES g) (BIN_SIZE g))) in *.
  set (k := generate_ed25519_key 0%nat).
  set (built := ("bins"%string,
                 bins_role utcnow k (map (delegated_role k) bins))
                  :: map (bin_role utcnow) (enumerate bins)).
  assert (Hnames : In bin (map fst bins))
    by (apply in_map_iff; exists (bin, prefixes); auto).
  assert (Hkeys : Dict.keys built = "bins"%string :: map fst bins).
  { unfold built. change (Dict.keys (?x :: ?l)) with (fst x :: Dict.keys l).
    now rewrite bin_roles_keys. }
  destruct (Dict.get built bin) as [role|] eqn:Er.
  2:{ assert (Hsome : Dict.get built bin <> None)
        by (apply get_in_keys; rewrite Hkeys; right; exact Hnames).
      congruence. }
  exists g, bin, role.
  split; [exact Eg|]. split; [exact Hwf|]. split; [exact Ef|].
  cbv zeta. fold bins k built.
  split; [exact Hnames|]. split; [exact Er|].
  unfold script. rewrite Eg. cbn [bind].
  rewrite (build_delegation_closed generate_ed25519_key utcnow g Hwf).
  cbv zeta. fold bins k built. cbn [bind].
  rewrite (add_target_ok g built path target_file_info bin role Ef Er).
  cbn [bind]. rewrite sign_and_persist_closed.
  reflexivity.
Qed.
End ScriptFacts.

Lemma well_formed_32 : well_formed constants_32.
Proof. unfold well_formed. cbn. repeat split; try lia. Qed.

(** C3. With 32 bins the delegating role ends up with exactly 32
    delegation entries, keyed by the bin names in generation order, which
    is ascending range order; every entry has threshold 1, is not
    terminating, and lists 8 hash prefixes; the lists are those of the
    generator and, put end to end, are the 256 two-digit prefixes in
    ascending order, none twice. *)
Theorem bins_role_delegations_32
    (generate_ed25519_key : nat -> SSlibKey.t) (utcnow : nat -> Z) :
  exists roles parent d bins,
    build_delegation utcnow constants_32 (provision_keys generate_ed25519_key)
    = Ok roles /\
    generate_hash_bins constants_32 = Ok bins /\
    Dict.get roles "bins"%string = Some parent /\
    Targets.delegations (Metadata.signed parent) = Some d /\
    List.length (Delegations.roles d) = 32%nat /\
    Dict.keys (Delegations.roles d) = map fst bins /\
    Dict.keys (Delegations.roles d)
    = map (fun i => _bin_name constants_32 (8 * Z.of_nat i) (8 * Z.of_nat i + 7))
          (seq 0 32) /\
    Forall (fun entry =>
              DelegatedRole.name (snd entry) = fst entry /\
              DelegatedRole.keyids (snd entry)
              = [SSlibKey.keyid (generate_ed25519_key 0%nat)] /\
              DelegatedRole.threshold (snd entry) = 1 /\
              DelegatedRole.terminating (snd entry) = false /\
              DelegatedRole.path_hash_prefixes (snd entry) <> [] /\
              List.length (DelegatedRole.path_hash_prefixes (snd entry))
              = Z.to_nat (BIN_SIZE constants_32))
           (Delegations.roles d) /\
    map (fun entry => DelegatedRole.path_hash_prefixes (snd entry))
        (Delegations.roles d) = map snd bins /\
    List.concat (map (fun entry => DelegatedRole.path_hash_prefixes (snd entry))
                     (Delegations.roles d))
    = map (format_0x 2) (range2 0 256) /\
    NoDup (List.concat
             (map (fun entry => DelegatedRole.path_hash_prefixes (snd entry))
                  (Delegations.roles d))).
Proof.
  eexists _, _, _, _.
  split; [apply (build_delegation_closed _ _ _ well_formed_32)|].
  split; [apply (generate_hash_bins_ok _ well_formed_32)|].
  split; [reflexivity|]. split; [reflexivity|].
  cbn [Delegations.roles].
  set (k := generate_ed25519_key 0%nat).
  assert (Hcat :
    List.concat
      (map (fun entry => DelegatedRole.path_hash_prefixes (snd entry))
           (map (delegated_role k)
                (map (hash_bin constants_32)
                     (range_items 0 (NUMBER_OF_PREFIXES constants_32)
                                  (BIN_SIZE constants_32)))))
    = map (format_0x 2) (range2 0 256)) by (vm_compute; reflexivity).
  split; [vm_compute; reflexivity|].
  split; [vm_compute; reflexivity|].
  split; [vm_compute; reflexivity|].
  split.
  { rewrite Forall_map. apply Forall_forall. intros bin Hin.
    cbn [delegated_role fst snd DelegatedRole.name DelegatedRole.keyids
         DelegatedRole.threshold DelegatedRole.terminating
         DelegatedRole.path_hash_prefixes].
    apply in_map_iff in Hin as (low & <- & Hin).
    cbn [hash_bin snd]. change (BIN_SIZE constants_32) with 8.
    change (low + 8) with (low + Z.of_nat 8).
    rewrite range2_unfold, length_map. cbn [seq map].
    repeat split; discriminate. }
  split; [vm_compute; reflexivity|].
  split; [exact Hcat|].
  rewrite Hcat. apply (prefixes_NoDup constants_32 well_formed_32).
Qed.

Lemma three_not_power_of_two : ~ is_power_of_two 3.
Proof.
  intros [[|k] E].
  - discriminate.
  - rewrite Nat2Z.inj_succ, Z.pow_succ_r in E by lia. lia.
Qed.

(** C4 (as stated, refuted). Three is not a power of two, and nothing
    fails: the constants are derived, the generator yields four bins, the
    script builds, fills and signs five documents. *)
Lemma three_bins_accepted :
  ~ is_power_of_two 3 /\
  exists g bins repo,
    module_constants 3 = Ok g /\
    generate_hash_bins g = Ok bins /\
    map fst bins = ["0-4"; "5-9"; "a-e"; "f-13"]%string /\
    sample_script 3 this_target_path = Ok repo /\
    Dict.keys (roles repo) = ["bins"; "0-4"; "5-9"; "a-e"; "f-13"]%string.
Proof.
  split; [exact three_not_power_of_two|].
  eexists _, _, _.
  split; [reflexivity|]. split; [reflexivity|]. split; [reflexivity|].
  split; [vm_compute; reflexivity|]. reflexivity.
Qed.

(** A negative number of bins passes the derivation of the constants as
    well; the generator then yields nothing, and the script fails late, at
    line 214, where the bin of the target has no role. *)
Example negative_bins_fail_late :
  module_constants (-1)
  = Ok {| NUMBER_OF_BINS := -1; PREFIX_LEN := 2;
          NUMBER_OF_PREFIXES := 256; BIN_SIZE := -256 |} /\
  (g <- module_constants (-1) ;; generate_hash_bins g) = Ok [] /\
  sample_script (-1) this_target_path = Raise (KeyError "100--1").
Proof. repeat split; vm_compute; reflexivity. Qed.

Lemma generated_bins_nonempty (g : Constants) :
  well_formed g ->
  map (hash_bin g) (range_items 0 (NUMBER_OF_PREFIXES g) (BIN_SIZE g)) <> [].
Proof.
  intros (_ & _ & HN & _ & Hpos) E.
  assert (Hin : In 0 (range_items 0 (NUMBER_OF_PREFIXES g) (BIN_SIZE g))).
  { apply in_range_items; [lia|]. rewrite HN. split; [|reflexivity].
    assert (0 < 16 ^ Z.of_nat (PREFIX_LEN g)) by (apply Z.pow_pos_nonneg; lia).
    lia. }
  apply (in_map (hash_bin g)) in Hin. rewrite E in Hin. exact Hin.
Qed.

(** C4 (amended). The number of bins is not checked.  Zero fails while the
    bin size is derived, with [ZeroDivisionError], before any key or
    document exists.  Every number from one on, power of two or not, is
    accepted: the constants are derived, the generator yields at least one
    bin, and for every encodable path the script completes with the
    delegating role and one role per generated bin. *)
Theorem number_of_bins_unchecked
    (generate_ed25519_key : nat -> SSlibKey.t) (utcnow : nat -> Z)
    (ed25519_sign : SSlibKey.t -> Targets.t -> string)
    (target_file_info : TargetFile.t) (TMP_DIR : string) (n : Z) :
  0 <= n ->
  (n = 0 ->
   module_constants n = Raise ZeroDivisionError /\
   forall path,
     script generate_ed25519_key utcnow ed25519_sign target_file_info
            TMP_DIR n path = Raise ZeroDivisionError) /\
  (1 <= n ->
   exists g bins,
     module_constants n = Ok g /\
     generate_hash_bins g = Ok bins /\
     bins <> [] /\
     forall path, encodable path = true ->
       exists repo,
         script generate_ed25519_key utcnow ed25519_sign target_file_info
                TMP_DIR n path = Ok repo /\
         Dict.keys (roles repo) = "bins"%string :: map fst bins).
Proof.
  intros Hn. split.
  - intros ->. split; [reflexivity|]. intros path. reflexivity.
  - intros H1.
    destruct (module_constants_positive n H1) as (g & Eg & _ & _ & Hwf).
    exists g, (map (hash_bin g)
                   (range_items 0 (NUMBER_OF_PREFIXES g) (BIN_SIZE g))).
    split; [exact Eg|]. split; [now apply generate_hash_bins_ok|].
    split; [now apply generated_bins_nonempty|].
    intros path Henc.
    destruct (script_closed generate_ed25519_key utcnow ed25519_sign
                target_file_info TMP_DIR n path H1 Henc)
      as (g' & bin & role & Eg' & _ & _ & Hin & Er & Es).
    rewrite Eg in Eg'. injection Eg' as <-.
    eexists. split; [exact Es|].
    cbn [roles]. rewrite signed_items_keys.
    rewrite keys_set_present by congruence.
    change (Dict.keys (?x :: ?l)) with (fst x :: Dict.keys l).
    now rewrite bin_roles_keys.
Qed.

Lemma number_of_bins_unchecked_witness :
  exists g bins,
    module_constants 3 = Ok g /\ generate_hash_bins g = Ok bins /\ bins <> [].
Proof.
  destruct (number_of_bins_unchecked sample_key sample_clock sample_sign
              sample_info "tmp" 3 ltac:(lia)) as [_ H].
  destruct (H ltac:(lia)) as (g & bins & Eg & Eb & Hne & _).
  exists g, bins. auto.
Defined.

(** C5. For a positive number of bins and an encodable target path the
    script completes, its roles are the delegating role [bins] and one role
    per generated bin, and every role carries exactly one signature: the one
    over its final signed part made with the key stored under [bins] for
    the delegating role and with the single key stored under [bin-n] for
    every other role.  Each role is written out as it was signed. *)
Theorem every_role_signed_once
    (generate_ed25519_key : nat -> SSlibKey.t) (utcnow : nat -> Z)
    (ed25519_sign : SSlibKey.t -> Targets.t -> string)
    (target_file_info : TargetFile.t) (TMP_DIR : string)
    (n : Z) (path : pystr) :
  1 <= n -> encodable path = true ->
  exists repo bins,
    script generate_ed25519_key utcnow ed25519_sign target_file_info TMP_DIR
           n path = Ok repo /\
    generate_hash_bins (constants repo) = Ok bins /\
    Dict.keys (roles repo) = "bins"%string :: map fst bins /\
    Dict.get (keys repo) "bins"%string = Some (generate_ed25519_key 1%nat) /\
    Dict.get (keys repo) "bin-n"%string = Some (generate_ed25519_key 0%nat) /\
    Forall (fun item =>
              let key := if String.eqb (fst item) "bins"
                         then generate_ed25519_key 1%nat
                         else generate_ed25519_key 0%nat in
              Metadata.signatures (snd item)
              = [(SSlibKey.keyid key,
                  Signature.mk (SSlibKey.keyid key)
                               (ed25519_sign key (Metadata.signed (snd item))))])
           (roles repo) /\
    files repo = map (persisted TMP_DIR) (roles repo).
Proof.
  intros Hn Henc.
  destruct (script_closed generate_ed25519_key utcnow ed25519_sign
              target_file_info TMP_DIR n path Hn Henc)
    as (g & bin & role & Eg & Hwf & _ & Hin & Er & Es).
  eexists. exists (map (hash_bin g)
                     (range_items 0 (NUMBER_OF_PREFIXES g) (BIN_SIZE g))).
  split; [exact Es|]. cbn [constants roles keys files].
  split; [now apply generate_hash_bins_ok|].
  split.
  { rewrite signed_items_keys, keys_set_present by congruence.
    change (Dict.keys (?x :: ?l)) with (fst x :: Dict.keys l).
    now rewrite bin_roles_keys. }
  split; [reflexivity|]. split; [reflexivity|].
  split; [|reflexivity].
  rewrite Forall_map. apply Forall_forall. intros [name doc] _.
  reflexivity.
Qed.

Lemma every_role_signed_once_witness :
  exists repo bins,
    sample_script configured_bins this_target_path = Ok repo /\
    generate_hash_bins (constants repo) = Ok bins /\
    Dict.keys (roles repo) = "bins"%string :: map fst bins.
Proof.
  destruct (every_role_signed_once sample_key sample_clock sample_sign
              sample_info "tmp" configured_bins this_target_path
              ltac:(unfold configured_bins; lia) eq_refl)
    as (repo & bins & Es & Eb & Ek & _).
  exists repo, bins. auto.
Defined.

(** C6 (as stated, refuted). After the script has signed everything, the
    target insertion of lines 213-214 applied to the signed role [80-87]
    does not fail: the record under the path is replaced, and the
    signature list is the one made for the former content. *)
Lemma signed_role_mutated_silently :
  exists repo role roles' role',
    sample_script configured_bins this_target_path = Ok repo /\
    Dict.get (roles repo) "80-87"%string = Some role /\
    Metadata.signatures role <> [] /\
    add_target constants_32 (roles repo) this_target_path other_info
    = Ok roles' /\
    Dict.get roles' "80-87"%string = Some role' /\
    Metadata.signed role' <> Metadata.signed role /\
    Metadata.signatures role' = Metadata.signatures role /\
    Metadata.signatures role'
    <> Metadata.signatures
         (sign sample_sign role' (sample_key 0%nat)).
Proof.
  eexists _, _, _, _.
  split; [vm_compute; reflexivity|].
  split; [vm_compute; reflexivity|].
  split; [vm_compute; discriminate|].
  split; [vm_compute; reflexivity|].
  split; [vm_compute; reflexivity|].
  split; [vm_compute; discriminate|].
  split; [reflexivity|].
  vm_compute. discriminate.
Qed.

(** C6 (amended). The insertion has no notion of a signed role: whenever
    the role of the path's bin exists, signed or not, it succeeds, stores
    the record under the path and leaves the signature list of that role as
    it was. *)
Theorem add_target_ignores_signatures
    (g : Constants) (roles : Dict.t string Metadata.t) (path : pystr)
    (info : TargetFile.t) (bin : string) (role : Metadata.t) :
  find_hash_bin g path = Ok bin ->
  Dict.get roles bin = Some role ->
  exists roles' role',
    add_target g roles path info = Ok roles' /\
    Dict.get roles' bin = Some role' /\
    Dict.get (Targets.targets (Metadata.signed role')) path = Some info /\
    Metadata.signatures role' = Metadata.signatures role.
Proof.
  intros Ef Er. eexists _, _.
  split; [apply (add_target_ok g roles path info bin role Ef Er)|].
  split; [apply get_set_same|].
  split; [apply get_set_same | reflexivity].
Qed.

Lemma add_target_ignores_signatures_witness :
  exists roles',
    add_target constants_32
      [("80-87"%string,
        sign sample_sign
          (Metadata.mk (Targets.mk 1 SPEC_VERSION 0 [] None) [])
          (sample_key 0%nat))]
      this_target_path sample_info = Ok roles'.
Proof.
  destruct (add_target_ignores_signatures constants_32
              [("80-87"%string,
                sign sample_sign
                  (Metadata.mk (Targets.mk 1 SPEC_VERSION 0 [] None) [])
                  (sample_key 0%nat))]
              this_target_path sample_info "80-87" _
              ltac:(vm_compute; reflexivity) eq_refl)
    as (roles' & _ & E & _).
  exists roles'. exact E.
Defined.

(** C8. When the insertion succeeds, the role it changed is the one named
    by [find_hash_bin]; of that role only the target map changed, where the
    path now maps to the record, every other path maps to what it mapped to
    before, and a path that was present keeps its place (its record is
    replaced) while a new path is appended; the roles keep their names and
    order; every other role, the delegating role [bins] among them, is what
    it was. *)
Theorem add_target_frame
    (g : Constants) (roles roles' : Dict.t string Metadata.t) (path : pystr)
    (info : TargetFile.t) :
  add_target g roles path info = Ok roles' ->
  exists bin role role',
    find_hash_bin g path = Ok bin /\
    Dict.get roles bin = Some role /\
    Dict.get roles' bin = Some role' /\
    Metadata.signatures role' = Metadata.signatures role /\
    Targets.version (Metadata.signed role')
    = Targets.version (Metadata.signed role) /\
    Targets.spec_version (Metadata.signed role')
    = Targets.spec_version (Metadata.signed role) /\
    Targets.expires (Metadata.signed role')
    = Targets.expires (Metadata.signed role) /\
    Targets.delegations (Metadata.signed role')
    = Targets.delegations (Metadata.signed role) /\
    Dict.get (Targets.targets (Metadata.signed role')) path = Some info /\
    (forall other, other <> path ->
       Dict.get (Targets.targets (Metadata.signed role')) other
       = Dict.get (Targets.targets (Metadata.signed role)) other) /\
    (Dict.get (Targets.targets (Metadata.signed role)) path <> None ->
     Dict.keys (Targets.targets (Metadata.signed role'))
     = Dict.keys (Targets.targets (Metadata.signed role))) /\
    (Dict.get (Targets.targets (Metadata.signed role)) path = None ->
     Targets.targets (Metadata.signed role')
     = Targets.targets (Metadata.signed role) ++ [(path, info)]) /\
    Dict.keys roles' = Dict.keys roles /\
    (forall name, name <> bin -> Dict.get roles' name = Dict.get roles name) /\
    bin <> "bins"%string /\
    Dict.get roles' "bins"%string = Dict.get roles "bins"%string.
Proof.
  intros E. apply add_target_inv in E as (bin & role & Ef & Er & ->).
  assert (Hb := find_hash_bin_not_bins g path bin Ef).
  exists bin, role, (set_target role path info).
  split; [exact Ef|]. split; [exact Er|].
  split; [apply get_set_same|].
  cbn [set_target Metadata.signed Metadata.signatures Targets.version
       Targets.spec_version Targets.expires Targets.delegations
       Targets.targets].
  repeat (split; [reflexivity|]).
  split; [apply get_set_same|].
  split; [intros other Ho; now apply get_set_other|].
  split; [apply keys_set_present|].
  split; [apply set_fresh|].
  split; [apply keys_set_present; congruence|].
  split; [intros name Hne; now apply get_set_other|].
  split; [exact Hb|].
  apply get_set_other. congruence.
Qed.

Lemma add_target_frame_witness :
  exists roles',
    add_target constants_32
      [("bins"%string, bins_role sample_clock (sample_key 0%nat) []);
       ("80-87"%string,
        Metadata.mk (Targets.mk 1 SPEC_VERSION 0 [] None) [])]
      this_target_path sample_info = Ok roles' /\
    Dict.get roles' "bins"%string
    = Some (bins_role sample_clock (sample_key 0%nat) []).
Proof.
  eexists. split; [vm_compute; reflexivity|].
  match goal with
  | |- Dict.get ?r _ = _ =>
      destruct (add_target_frame constants_32
                  [("bins"%string, bins_role sample_clock (sample_key 0%nat) []);
                   ("80-87"%string,
                    Metadata.mk (Targets.mk 1 SPEC_VERSION 0 [] None) [])]
                  r this_target_path sample_info
                  ltac:(vm_compute; reflexivity))
        as (bin & role & role' & H)
  end.
  decompose [and] H. assumption.
Defined.

(* ================================================================= *)
(** * Further properties of the helpers and of the script *)

(** ** Bin names *)

Lemma lower_hex_bin_name_char (s : string) :
  string_forall is_lower_hex s = true ->
  string_forall is_bin_name_char s = true.
Proof.
  induction s as [|c s IH]; simpl; [reflexivity|].
  intros H. apply andb_true_iff in H as [Hc Hs].
  rewrite (IH Hs). unfold is_bin_name_char. now rewrite Hc.
Qed.

Lemma format_0x_bin_name_chars (w : nat) (n : Z) :
  string_forall is_bin_name_char (format_0x w n) = true.
Proof.
  unfold format_0x. destruct (n <? 0).
  - cbn [string_forall].
    rewrite lower_hex_bin_name_char by apply hex_fixed_lower. reflexivity.
  - apply lower_hex_bin_name_char, hex_fixed_lower.
Qed.

Lemma format_0x_nonempty (w : nat) (n : Z) :
  (1 <= String.length (format_0x w n))%nat.
Proof.
  unfold format_0x. destruct (n <? 0).
  - cbn [String.length]. lia.
  - rewrite hex_fixed_length. pose proof (hexlen_pos n). lia.
Qed.

(** X1. Whatever the constants and the bounds, a bin name is not empty, holds
    only the characters [0-9a-f] and the dash, and so is never the name
    [bins] of the delegating role: a delegated role cannot take its place in
    the registry. *)
Theorem bin_name_alphabet (g : Constants) (low high : Z) :
  (1 <= String.length (_bin_name g low high))%nat /\
  string_forall is_bin_name_char (_bin_name g low high) = true /\
  _bin_name g low high <> "bins"%string.
Proof.
  assert (Hc : string_forall is_bin_name_char (_bin_name g low high) = true).
  { unfold _bin_name. destruct (low =? high).
    - apply format_0x_bin_name_chars.
    - rewrite !string_forall_append, !format_0x_bin_name_chars. reflexivity. }
  split; [|split; [exact Hc|]].
  - unfold _bin_name. destruct (low =? high).
    + apply format_0x_nonempty.
    + rewrite length_append. pose proof (format_0x_nonempty (PREFIX_LEN g) low).
      lia.
  - intros E. rewrite E in Hc. discriminate.
Qed.

Lemma generated_low_bounds (g : Constants) (low : Z) :
  well_formed g -> evenly_divided g ->
  In low (range_items 0 (NUMBER_OF_PREFIXES g) (BIN_SIZE g)) ->
  0 <= low /\ low + BIN_SIZE g <= NUMBER_OF_PREFIXES g.
Proof.
  intros (Hn & _ & _ & _ & Hpos) Hev Hin. unfold evenly_divided in Hev.
  apply in_range_items in Hin; [|lia]. destruct Hin as [[H0 HN] Hmod].
  rewrite Z.sub_0_r in Hmod. apply Z.mod_divide in Hmod; [|lia].
  destruct Hmod as [q Hq]. split; [lia|].
  assert (Hlt : q < NUMBER_OF_BINS g).
  { apply (Z.mul_lt_mono_pos_r (BIN_SIZE g)); lia. }
  assert (Hle : (q + 1) * BIN_SIZE g <= NUMBER_OF_BINS g * BIN_SIZE g)
    by (apply Z.mul_le_mono_nonneg_r; lia).
  lia.
Qed.

(** X2. For a number of bins that is a power of two, the zero padding does
    what it is for: all generated bin names have one length (the prefix
    length for bins of one prefix, twice the prefix length and the dash
    otherwise), and every listed hash prefix has exactly the prefix
    length. *)
Theorem bin_names_uniform_length (n : Z) :
  is_power_of_two n ->
  exists g bins,
    module_constants n = Ok g /\
    generate_hash_bins g = Ok bins /\
    forall bin, In bin bins ->
      String.length (fst bin)
      = (if BIN_SIZE g =? 1 then PREFIX_LEN g
         else (2 * PREFIX_LEN g + 1)%nat) /\
      forall prefix, In prefix (snd bin) ->
        String.length prefix = PREFIX_LEN g.
Proof.
  intros Hpow.
  destruct (module_constants_pow2 n Hpow) as (g & Eg & _ & _ & Hwf & Hev).
  exists g. eexists. split; [exact Eg|].
  split; [now apply generate_hash_bins_ok|].
  intros bin Hin. apply in_map_iff in Hin as (low & <- & Hin).
  destruct (generated_low_bounds g low Hwf Hev Hin) as [H0 Hhi].
  destruct Hwf as (_ & Hlen & HN & _ & Hpos). rewrite HN in Hhi.
  cbn [hash_bin fst snd]. split.
  - unfold _bin_name.
    rewrite !format_0x_fixed by (try assumption; lia).
    destruct (Z.eqb_spec low (low + BIN_SIZE g - 1));
      destruct (Z.eqb_spec (BIN_SIZE g) 1); try lia.
    + apply hex_fixed_length.
    + rewrite !length_append, !hex_fixed_length. cbn [String.length]. lia.
  - intros prefix Hp. apply in_map_iff in Hp as (p & <- & Hp).
    apply in_range2 in Hp.
    rewrite format_0x_fixed by (try assumption; lia).
    apply hex_fixed_length.
Qed.

Lemma bin_names_uniform_length_witness :
  exists g bins,
    module_constants 32 = Ok g /\ generate_hash_bins g = Ok bins /\
    forall bin, In bin bins -> String.length (fst bin) = 5%nat.
Proof.
  destruct (bin_names_uniform_length 32 ltac:(exists 5%nat; reflexivity))
    as (g & bins & Eg & Eb & H).
  exists g, bins. split; [exact Eg|]. split; [exact Eb|].
  intros bin Hin. destruct (H bin Hin) as [Hl _].
  change (module_constants 32) with (Ok constants_32) in Eg.
  injection Eg as <-. exact Hl.
Defined.

Lemma slice_to_append_exact (s t : string) :
  slice_to (String.length s) (s ++ t)%string = s.
Proof.
  unfold slice_to. induction s as [|c s IH]; simpl.
  - destruct t; reflexivity.
  - now rewrite IH.
Qed.

Lemma substring_append_skip (s t : string) (k m : nat) :
  substring (String.length s + k) m (s ++ t)%string = substring k m t.
Proof. induction s as [|c s IH]; simpl; [reflexivity | exact IH]. Qed.

Lemma get_append_skip (s t : string) (k : nat) :
  String.get (String.length s + k) (s ++ t)%string = String.get k t.
Proof. induction s as [|c s IH]; simpl; [reflexivity | exact IH]. Qed.

Lemma int16_hex_fixed (w : nat) (x : Z) :
  (1 <= w)%nat -> 0 <= x < 16 ^ Z.of_nat w -> int16 (hex_fixed w x) = Ok x.
Proof.
  intros Hw Hx. unfold int16.
  rewrite int16_digits_hex_fixed, Z.mod_small by lia.
  assert (Hl := hex_fixed_length w x).
  destruct (hex_fixed w x); [simpl in Hl; lia | reflexivity].
Qed.

Lemma append_empty_r (s : string) : (s ++ "")%string = s.
Proof. induction s as [|c s IH]; simpl; [reflexivity | now rewrite IH]. Qed.

Lemma slice_to_hex_fixed_append (w : nat) (x : Z) (t : string) :
  slice_to w (hex_fixed w x ++ t)%string = hex_fixed w x.
Proof.
  rewrite <- (hex_fixed_length w x) at 1. apply slice_to_append_exact.
Qed.

Lemma slice_to_hex_fixed (w : nat) (x : Z) :
  slice_to w (hex_fixed w x) = hex_fixed w x.
Proof.
  rewrite <- (append_empty_r (hex_fixed w x)) at 1.
  apply slice_to_hex_fixed_append.
Qed.

(** X3. A bin name reads back as the bounds it was made from.  For bounds
    within the prefix space, the first [PREFIX_LEN] characters of the name
    parse (base 16) to the lower bound; the name of a one-prefix bin has
    nothing else, and in the name of a range the dash follows and the
    [PREFIX_LEN] characters after it parse to the upper bound. *)
Theorem bin_name_round_trip (g : Constants) (low high : Z) :
  (1 <= PREFIX_LEN g)%nat ->
  0 <= low -> low <= high -> high < 16 ^ Z.of_nat (PREFIX_LEN g) ->
  let name := _bin_name g low high in
  int16 (slice_to (PREFIX_LEN g) name) = Ok low /\
  (low = high -> String.length name = PREFIX_LEN g) /\
  (low < high ->
   String.get (PREFIX_LEN g) name = Some "-"%char /\
   String.length name = (2 * PREFIX_LEN g + 1)%nat /\
   int16 (substring (S (PREFIX_LEN g)) (PREFIX_LEN g) name) = Ok high).
Proof.
  intros Hlen H0 Hle Hhi name. unfold name, _bin_name.
  rewrite !format_0x_fixed by lia.
  set (w := PREFIX_LEN g) in *.
  destruct (Z.eqb_spec low high) as [<-|Hne].
  - split; [|split; [intros _; apply hex_fixed_length | lia]].
    rewrite slice_to_hex_fixed. apply int16_hex_fixed; lia.
  - split; [|split; [lia | intros _]].
    + rewrite slice_to_hex_fixed_append. apply int16_hex_fixed; lia.
    + split; [|split].
      * rewrite <- (hex_fixed_length w low) at 1.
        rewrite <- (Nat.add_0_r (String.length _)).
        rewrite get_append_skip. reflexivity.
      * rewrite !length_append, !hex_fixed_length. cbn [String.length]. lia.
      * replace (S w) with (String.length (hex_fixed w low) + 1)%nat
          by (rewrite hex_fixed_length; lia).
        rewrite substring_append_skip. cbn [append substring].
        fold (slice_to w (hex_fixed w high)).
        rewrite slice_to_hex_fixed. apply int16_hex_fixed; lia.
Qed.

Lemma bin_name_round_trip_witness :
  int16 (slice_to 2 (_bin_name constants_32 0x80 0x87)) = Ok 0x80 /\
  int16 (substring 3 2 (_bin_name constants_32 0x80 0x87)) = Ok 0x87.
Proof.
  destruct (bin_name_round_trip constants_32 0x80 0x87
              ltac:(cbn; lia) ltac:(lia) ltac:(lia) ltac:(cbn; lia))
    as (Hlow & _ & Hhigh).
  split; [exact Hlow|]. apply Hhigh. lia.
Defined.

(** ** How many bins there are *)

Lemma divisor_of_power_of_two (m : nat) (n : Z) :
  0 < n -> (n | 2 ^ Z.of_nat m) -> is_power_of_two n.
Proof.
  revert n; induction m as [|m IH]; intros n Hn Hdiv.
  - exists 0%nat. simpl in *. apply Z.divide_1_r_nonneg in Hdiv; lia.
  - rewrite Nat2Z.inj_succ, Z.pow_succ_r in Hdiv by lia.
    destruct (Z.eq_dec (n mod 2) 0) as [Heven|Hodd].
    + apply Z.mod_divide in Heven; [|lia]. destruct Heven as [k ->].
      assert (Hk : 0 < k) by lia.
      destruct (IH k Hk) as [j ->].
      * destruct Hdiv as [q Hq]. exists q. lia.
      * exists (S j). rewrite Nat2Z.inj_succ, Z.pow_succ_r by lia. lia.
    + apply IH; [exact Hn|].
      apply (Z.gauss n 2); [exact Hdiv|].
      assert (Hg := Z.gcd_divide_r n 2).
      assert (Hg' := Z.gcd_divide_l n 2).
      assert (Hpos := Z.gcd_nonneg n 2).
      apply Z.divide_pos_le in Hg; [|lia].
      assert (Hcases : Z.gcd n 2 = 0 \/ Z.gcd n 2 = 1 \/ Z.gcd n 2 = 2) by lia.
      destruct Hcases as [E|[E|E]]; [|exact E|].
      * apply Z.gcd_eq_0_l in E. lia.
      * rewrite E in Hg'. apply Z.mod_divide in Hg'; lia.
Qed.

Lemma range_items_from_zero (stop step : Z) :
  range_items 0 stop step
  = map (fun i => Z.of_nat i * step) (seq 0 (range_len 0 stop step)).
Proof. unfold range_items. apply map_ext. intros i. lia. Qed.

(** X4. For every number of bins from one on, the generator yields
    [ceil(NUMBER_OF_PREFIXES / BIN_SIZE)] bins, in ascending order: the i-th
    starts at [i * BIN_SIZE] and lists [BIN_SIZE] consecutive prefixes.
    There are never fewer bins than configured, and exactly as many as
    configured if and only if the configured number is a power of two. *)
Theorem generated_bin_count (n : Z) :
  1 <= n ->
  exists g bins,
    module_constants n = Ok g /\
    generate_hash_bins g = Ok bins /\
    Z.of_nat (List.length bins)
    = (NUMBER_OF_PREFIXES g + BIN_SIZE g - 1) / BIN_SIZE g /\
    bins = map (fun i => hash_bin g (Z.of_nat i * BIN_SIZE g))
               (seq 0 (List.length bins)) /\
    (forall bin, In bin bins ->
       Z.of_nat (List.length (snd bin)) = BIN_SIZE g) /\
    n <= Z.of_nat (List.length bins) /\
    (Z.of_nat (List.length bins) = n <-> is_power_of_two n).
Proof.
  intros Hn.
  destruct (module_constants_positive n Hn) as (g & Eg & En & _ & Hwf).
  assert (Hwf' := Hwf). destruct Hwf' as (_ & Hlen & HN & HS & Hpos).
  rewrite En in HS.
  set (N := NUMBER_OF_PREFIXES g) in *. set (size := BIN_SIZE g) in *.
  assert (HnS : n * size <= N) by (rewrite HS; apply Z.mul_div_le; lia).
  assert (Hq : size * ((N + size - 1) / size) <= N + size - 1
               < size * ((N + size - 1) / size + 1)).
  { assert (Hd := Z.div_mod (N + size - 1) size ltac:(lia)).
    assert (Hm := Z.mod_pos_bound (N + size - 1) size ltac:(lia)). lia. }
  assert (Hcount : Z.of_nat (range_len 0 N size) = (N + size - 1) / size).
  { unfold range_len. destruct (Z.ltb_spec 0 size); [|lia].
    rewrite Z.sub_0_r, Z2Nat.id; [reflexivity|].
    apply Z.div_pos; lia. }
  set (bins := map (hash_bin g) (range_items 0 N size)).
  assert (Hl : List.length bins = range_len 0 N size).
  { unfold bins, range_items. now rewrite !length_map, length_seq. }
  exists g, bins.
  split; [exact Eg|]. split; [now apply generate_hash_bins_ok|].
  rewrite Hl.
  split; [exact Hcount|]. split.
  { unfold bins. rewrite range_items_from_zero, map_map. reflexivity. }
  split.
  { intros bin Hin. apply in_map_iff in Hin as (low & <- & _).
    cbn [hash_bin snd]. rewrite length_map. fold size.
    replace (low + size) with (low + Z.of_nat (Z.to_nat size))
      by (rewrite Z2Nat.id; lia).
    rewrite range2_unfold, length_map, length_seq. apply Z2Nat.id. lia. }
  rewrite Hcount. split.
  { apply Z.div_le_lower_bound; lia. }
  split.
  - intros Ecount. rewrite Ecount in Hq.
    assert (Hexact : N = n * size) by nia.
    apply (divisor_of_power_of_two (4 * PREFIX_LEN g)); [lia|].
    exists size. rewrite Nat2Z.inj_mul, <- pow16_pow2 by lia.
    rewrite <- HN. lia.
  - intros Hpow.
    destruct (module_constants_pow2 n Hpow) as (g' & Eg' & _ & _ & _ & Hev).
    rewrite Eg in Eg'. injection Eg' as <-.
    unfold evenly_divided in Hev. rewrite En in Hev. fold N size in Hev.
    replace (N + size - 1) with (size - 1 + n * size) by lia.
    rewrite Z.div_add, Z.div_small by lia. lia.
Qed.

Lemma generated_bin_count_witness :
  exists g bins,
    module_constants 3 = Ok g /\ generate_hash_bins g = Ok bins /\
    3 <= Z.of_nat (List.length bins).
Proof.
  destruct (generated_bin_count 3 ltac:(lia))
    as (g & bins & Eg & Eb & _ & _ & _ & Hle & _).
  exists g, bins. auto.
Defined.

(** ** Which paths share a bin *)

Lemma low_is_multiple (p size : Z) :
  0 < size -> p - p mod size = size * (p / size).
Proof. intros H. pose proof (Z.div_mod p size ltac:(lia)). lia. Qed.

(** X5. Two encodable paths are assigned to the same bin exactly when their
    hash prefixes, divided by the bin size, give the same quotient; the
    rest of the digest and the path itself play no part. *)
Theorem same_bin_iff_same_quotient (n : Z) (a b : pystr) :
  1 <= n -> encodable a = true -> encodable b = true ->
  exists g da db pa pb,
    module_constants n = Ok g /\
    target_name_hash a = Ok da /\ target_name_hash b = Ok db /\
    int16 (slice_to (PREFIX_LEN g) da) = Ok pa /\
    int16 (slice_to (PREFIX_LEN g) db) = Ok pb /\
    (find_hash_bin g a = find_hash_bin g b
     <-> pa / BIN_SIZE g = pb / BIN_SIZE g).
Proof.
  intros Hn Ha Hb.
  destruct (module_constants_positive n Hn) as (g & Eg & _ & _ & Hwf).
  destruct (find_hash_bin_spec g a Hwf Ha) as (da & pa & Eda & _ & Epa & Hpa & Efa).
  destruct (find_hash_bin_spec g b Hwf Hb) as (db & pb & Edb & _ & Epb & Hpb & Efb).
  exists g, da, db, pa, pb. repeat (split; [assumption|]).
  assert (Hpos : 1 <= BIN_SIZE g) by apply Hwf.
  rewrite Efa, Efb.
  rewrite !low_is_multiple by lia.
  assert (Hqa : 0 <= pa / BIN_SIZE g) by (apply Z.div_pos; lia).
  assert (Hqb : 0 <= pb / BIN_SIZE g) by (apply Z.div_pos; lia).
  assert (Hma := Z.mul_div_le pa (BIN_SIZE g) ltac:(lia)).
  assert (Hmb := Z.mul_div_le pb (BIN_SIZE g) ltac:(lia)).
  split.
  - intros E. injection E as E.
    apply (bin_name_inj g) in E; [nia | exact Hwf | nia | nia].
  - intros ->. reflexivity.
Qed.

Lemma same_bin_iff_same_quotient_witness :
  find_hash_bin constants_32 this_target_path
  <> find_hash_bin constants_32 (str "abc").
Proof.
  destruct (same_bin_iff_same_quotient configured_bins this_target_path
              (str "abc") ltac:(unfold configured_bins; lia) eq_refl eq_refl)
    as (g & da & db & pa & pb & Eg & Eda & Edb & Epa & Epb & H).
  rewrite module_constants_32 in Eg. injection Eg as <-.
  vm_compute in Eda. injection Eda as <-.
  vm_compute in Edb. injection Edb as <-.
  vm_compute in Epa. injection Epa as <-.
  vm_compute in Epb. injection Epb as <-.
  intros E. apply H in E. vm_compute in E. discriminate.
Defined.

Lemma format_0x_inj_in_space (w : nat) (p q : Z) :
  (1 <= w)%nat -> 0 <= p < 16 ^ Z.of_nat w -> 0 <= q ->
  format_0x w p = format_0x w q -> p = q.
Proof.
  intros Hw Hp Hq E.
  rewrite (format_0x_fixed w p Hw Hp), (format_0x_nonneg w q Hq) in E.
  assert (Hl : w = Nat.max w (hexlen q)).
  { apply (f_equal String.length) in E. now rewrite !hex_fixed_length in E. }
  rewrite <- Hl in E. apply (hex_fixed_inj w); [assumption| |exact E].
  split; [assumption|].
  apply Z.lt_le_trans with (16 ^ Z.of_nat (hexlen q)); [now apply hexlen_upper|].
  apply Z.pow_le_mono_r; lia.
Qed.

(** X6. Also for a number of bins that is no power of two, assignment and
    generation agree.  For every number of bins from one on and every
    encodable path, [find_hash_bin] names a generated bin; the generated
    names are pairwise distinct; and with at most 64 prefix digits, the
    leading digits of the digest are listed by that bin and by no other
    generated bin. *)
Theorem assignment_within_generated (n : Z) (path : pystr) :
  1 <= n -> encodable path = true ->
  exists g bins digest name prefixes,
    module_constants n = Ok g /\
    generate_hash_bins g = Ok bins /\
    target_name_hash path = Ok digest /\
    find_hash_bin g path = Ok name /\
    In (name, prefixes) bins /\
    NoDup (map fst bins) /\
    ((PREFIX_LEN g <= 64)%nat ->
     In (slice_to (PREFIX_LEN g) digest) prefixes /\
     forall bin, In bin bins ->
       In (slice_to (PREFIX_LEN g) digest) (snd bin) -> bin = (name, prefixes)).
Proof.
  intros Hn Henc.
  destruct (module_constants_positive n Hn) as (g & Eg & _ & _ & Hwf).
  destruct (find_hash_bin_spec g path Hwf Henc)
    as (digest & p & Ed & _ & Ep & Hp & Ef).
  destruct (low_in_range g p Hwf Hp) as [Hin Hlow].
  assert (Hwf' := Hwf). destruct Hwf' as (_ & Hlen & HN & _ & Hpos).
  set (low := p - p mod BIN_SIZE g) in *.
  exists g, (map (hash_bin g)
                 (range_items 0 (NUMBER_OF_PREFIXES g) (BIN_SIZE g))),
    digest, (fst (hash_bin g low)), (snd (hash_bin g low)).
  split; [exact Eg|]. split; [now apply generate_hash_bins_ok|].
  split; [exact Ed|]. split; [exact Ef|].
  split; [rewrite <- surjective_pairing; now apply in_map|].
  split; [now apply bin_names_NoDup|].
  intros H64.
  assert (Efmt := digest_prefix_format g path digest p ltac:(lia) Ed Ep).
  rewrite <- Efmt. split.
  - cbn [hash_bin snd]. apply in_map, in_range2. exact Hlow.
  - intros bin Hbin Hpre. apply in_map_iff in Hbin as (low' & <- & Hlow').
    rewrite <- surjective_pairing. f_equal.
    cbn [hash_bin snd] in Hpre. apply in_map_iff in Hpre as (q & Eq & Hq).
    apply in_range2 in Hq. apply in_range_items in Hlow'; [|lia].
    destruct Hlow' as [[Hl0 HlN] Hmod]. rewrite Z.sub_0_r in Hmod.
    symmetry in Eq. rewrite HN in Hp.
    apply format_0x_inj_in_space in Eq; [|assumption|assumption|lia].
    subst q. unfold low.
    apply Z.mod_divide in Hmod; [|lia]. destruct Hmod as [k Hk].
    rewrite low_is_multiple by lia.
    assert (Hk' : k = p / BIN_SIZE g).
    { apply (Z.div_unique p (BIN_SIZE g) k (p - low')); lia. }
    lia.
Qed.

Lemma assignment_within_generated_witness :
  exists g bins name,
    module_constants 3 = Ok g /\ generate_hash_bins g = Ok bins /\
    find_hash_bin g this_target_path = Ok name /\ In name (map fst bins).
Proof.
  destruct (assignment_within_generated 3 this_target_path ltac:(lia) eq_refl)
    as (g & bins & digest & name & prefixes & Eg & Eb & _ & Ef & Hin & _).
  exists g, bins, name. repeat split; try assumption.
  apply in_map_iff. exists (name, prefixes). auto.
Defined.

(** ** Target insertion: errors and composition *)

Section DictMoreFacts.
Context {K V : Type} `{DictKeyLaws K}.
Implicit Types (d : Dict.t K V) (k : K) (v : V).

Lemma set_set_same d k v v' : Dict.set (Dict.set d k v) k v' = Dict.set d k v'.
Proof.
  induction d as [|[k0 v0] d IH]; simpl.
  - now rewrite key_eqb_refl.
  - destruct (key_eqb k0 k) eqn:E; simpl; rewrite E; [reflexivity|].
    now rewrite IH.
Qed.

Lemma get_Some_in d k v : Dict.get d k = Some v -> In (k, v) d.
Proof.
  induction d as [|[k0 v0] d IH]; simpl; [discriminate|].
  destruct (key_eqb_spec k0 k) as [->|Hne].
  - intros E. injection E as ->. now left.
  - intros E. right. now apply IH.
Qed.

Lemma in_get_NoDup d k v :
  NoDup (Dict.keys d) -> In (k, v) d -> Dict.get d k = Some v.
Proof.
  induction d as [|[k0 v0] d IH]; simpl; [contradiction|].
  intros Hnd [E|Hin]; inversion Hnd as [|? ? Hnotin Hnd']; subst.
  - injection E as -> ->. now rewrite key_eqb_refl.
  - destruct (key_eqb_spec k0 k) as [->|Hne].
    + exfalso. apply Hnotin. apply (in_map fst) in Hin. exact Hin.
    + now apply IH.
Qed.

Lemma in_set_inv d k v k' v' :
  NoDup (Dict.keys d) -> In (k', v') (Dict.set d k v) ->
  (k' = k /\ v' = v) \/ (k' <> k /\ In (k', v') d).
Proof.
  induction d as [|[k0 v0] d IH]; simpl.
  - intros _ [E|[]]. injection E as <- <-. now left.
  - intros Hnd. inversion Hnd as [|? ? Hnotin Hnd']; subst.
    destruct (key_eqb_spec k0 k) as [->|Hne]; simpl.
    + intros [E|Hin].
      * injection E as <- <-. now left.
      * right. split; [|now right].
        intros ->. apply Hnotin. apply (in_map fst) in Hin. exact Hin.
    + intros [E|Hin].
      * injection E as <- <-. right. split; [congruence | now left].
      * destruct (IH Hnd' Hin) as [?|[? ?]]; [now left | right; auto].
Qed.
End DictMoreFacts.

Lemma set_target_twice (role : Metadata.t) (path : pystr)
    (info info' : TargetFile.t) :
  set_target (set_target role path info) path info'
  = set_target role path info'.
Proof.
  unfold set_target. cbn [Metadata.signed Metadata.signatures Targets.version
    Targets.spec_version Targets.expires Targets.targets Targets.delegations].
  now rewrite set_set_same.
Qed.

(** X7. Once the constants are loaded for a number of bins from one on, the
    target insertion of lines 213-214 can fail in two ways only:
    [UnicodeEncodeError], exactly when the path has a surrogate code point,
    and [KeyError] with the name of the path's bin, exactly when the
    registry has no role of that name.  Otherwise it succeeds. *)
Theorem add_target_errors
    (g : Constants) (roles : Dict.t string Metadata.t) (path : pystr)
    (info : TargetFile.t) :
  well_formed g ->
  (encodable path = false /\
   add_target g roles path info = Raise UnicodeEncodeError) \/
  (exists bin,
     encodable path = true /\ find_hash_bin g path = Ok bin /\
     ((Dict.get roles bin = None /\
       add_target g roles path info = Raise (KeyError bin)) \/
      (exists role,
         Dict.get roles bin = Some role /\
         add_target g roles path info
         = Ok (Dict.set roles bin (set_target role path info))))).
Proof.
  intros Hwf. destruct (encodable path) eqn:Henc.
  - right.
    destruct (find_hash_bin_spec g path Hwf Henc)
      as (digest & p & _ & _ & _ & _ & Ef).
    eexists. split; [reflexivity|]. split; [exact Ef|].
    destruct (Dict.get roles _) as [role|] eqn:Er.
    + right. exists role. split; [reflexivity|].
      now apply add_target_ok.
    + left. split; [reflexivity|].
      unfold add_target. rewrite Ef. cbn [bind]. unfold getitem.
      now rewrite Er.
  - left. split; [reflexivity|].
    unfold add_target, find_hash_bin, target_name_hash.
    now rewrite (encode_utf8_surrogate path Henc).
Qed.

Lemma add_target_errors_witness :
  add_target constants_32 [] this_target_path sample_info
  = Raise (KeyError "80-87").
Proof.
  destruct (add_target_errors constants_32 [] this_target_path sample_info
              well_formed_32)
    as [[Henc _]|(bin & _ & Ef & [[_ E]|(role & Er & _)])].
  - discriminate.
  - vm_compute in Ef. injection Ef as <-. exact E.
  - discriminate.
Defined.

(** X8. Insertions compose as assignments to a dictionary do.  Inserting
    the same path twice leaves what inserting the second record alone
    leaves; and after inserting two different paths, one after the other,
    each record is found under its path in the role of its bin, the first
    one not lost to the second. *)
Theorem add_target_twice
    (g : Constants) (roles r1 r2 : Dict.t string Metadata.t)
    (p1 p2 : pystr) (i1 i2 : TargetFile.t) :
  add_target g roles p1 i1 = Ok r1 ->
  add_target g r1 p2 i2 = Ok r2 ->
  (p1 = p2 -> add_target g roles p2 i2 = Ok r2) /\
  (p1 <> p2 ->
   exists b1 b2 role1 role2,
     find_hash_bin g p1 = Ok b1 /\ find_hash_bin g p2 = Ok b2 /\
     Dict.get r2 b1 = Some role1 /\ Dict.get r2 b2 = Some role2 /\
     Dict.get (Targets.targets (Metadata.signed role1)) p1 = Some i1 /\
     Dict.get (Targets.targets (Metadata.signed role2)) p2 = Some i2).
Proof.
  intros E1 E2.
  apply add_target_inv in E1 as (b1 & role1 & Ef1 & Er1 & ->).
  apply add_target_inv in E2 as (b2 & role2 & Ef2 & Er2 & ->).
  split.
  - intros <-. rewrite Ef1 in Ef2. injection Ef2 as <-.
    rewrite get_set_same in Er2. injection Er2 as <-.
    rewrite set_target_twice, set_set_same.
    now apply add_target_ok.
  - intros Hne. exists b1, b2.
    destruct (String.eqb_spec b1 b2) as [<-|Hb].
    + rewrite get_set_same in Er2. injection Er2 as <-.
      eexists _, _. split; [exact Ef1|]. split; [exact Ef2|].
      split; [apply get_set_same|]. split; [apply get_set_same|].
      cbn [set_target Metadata.signed Targets.targets].
      split; [|apply get_set_same].
      rewrite get_set_other by congruence. apply get_set_same.
    + eexists _, _. split; [exact Ef1|]. split; [exact Ef2|].
      rewrite get_set_other, get_set_same by congruence.
      split; [reflexivity|]. split; [apply get_set_same|].
      cbn [set_target Metadata.signed Targets.targets].
      split; apply get_set_same.
Qed.

Lemma add_target_twice_witness :
  add_target constants_32
    [("80-87"%string, Metadata.mk (Targets.mk 1 SPEC_VERSION 0 [] None) [])]
    this_target_path other_info
  = Ok [("80-87"%string,
         Metadata.mk
           (Targets.mk 1 SPEC_VERSION 0 [(this_target_path, other_info)] None)
           [])].
Proof.
  destruct (add_target_twice constants_32
              [("80-87"%string,
                Metadata.mk (Targets.mk 1 SPEC_VERSION 0 [] None) [])]
              _ _ this_target_path this_target_path sample_info other_info
              ltac:(vm_compute; reflexivity) ltac:(vm_compute; reflexivity))
    as [H _].
  exact (H eq_refl).
Defined.

(** ** A negative number of bins *)

Lemma format_x_negative_length (m : Z) :
  m < 0 -> String.length (format_x m) = S (hexlen (- m)).
Proof.
  intros Hm. unfold format_x, format_0x.
  destruct (Z.ltb_spec m 0); [|lia].
  cbn [String.length]. now rewrite hex_fixed_length, Nat.max_0_l.
Qed.

Lemma module_constants_negative (n : Z) :
  n < 0 ->
  exists g,
    module_constants n = Ok g /\
    (1 <= PREFIX_LEN g)%nat /\
    0 < NUMBER_OF_PREFIXES g /\
    - NUMBER_OF_PREFIXES g <= BIN_SIZE g < 0.
Proof.
  intros Hn. unfold module_constants, floordiv.
  destruct (Z.eqb_spec n 0) as [|_]; [lia|]. cbn [bind].
  eexists. split; [reflexivity|].
  cbn [PREFIX_LEN NUMBER_OF_PREFIXES BIN_SIZE].
  rewrite format_x_negative_length by lia.
  set (N := 16 ^ Z.of_nat (S (hexlen (- (n - 1))))).
  assert (HN : 0 < N) by (apply Z.pow_pos_nonneg; lia).
  split; [lia|]. split; [exact HN|].
  rewrite <- (Z.div_opp_opp N n) by lia. split.
  - apply Z.div_le_lower_bound; nia.
  - apply Z.div_lt_upper_bound; lia.
Qed.

Lemma generate_hash_bins_negative (g : Constants) :
  0 < NUMBER_OF_PREFIXES g ->
  - NUMBER_OF_PREFIXES g <= BIN_SIZE g < 0 ->
  generate_hash_bins g = Ok [].
Proof.
  intros HN HS. unfold generate_hash_bins, range3.
  destruct (Z.eqb_spec (BIN_SIZE g) 0); [lia|]. cbn [bind].
  unfold range_items, range_len.
  destruct (Z.ltb_spec 0 (BIN_SIZE g)); [lia|].
  assert (Hq : (0 - NUMBER_OF_PREFIXES g - BIN_SIZE g - 1) / - BIN_SIZE g < 0)
    by (apply Z.div_lt_upper_bound; lia).
  replace (Z.to_nat _) with 0%nat by lia. reflexivity.
Qed.

Lemma find_hash_bin_nonzero (g : Constants) (path : pystr) :
  (1 <= PREFIX_LEN g)%nat -> BIN_SIZE g <> 0 -> encodable path = true ->
  exists name, find_hash_bin g path = Ok name.
Proof.
  intros Hlen HS Henc.
  destruct (encode_utf8_total path Henc) as [data Edata].
  unfold find_hash_bin, target_name_hash. rewrite Edata. cbn [bind].
  destruct (int16_digest_slice (PREFIX_LEN g)
              (SHA256.update SHA256.new data) Hlen) as (p & Ep & _).
  cbv zeta. rewrite Ep. cbn [bind]. unfold pymod.
  destruct (Z.eqb_spec (BIN_SIZE g) 0); [contradiction|]. cbn [bind]. eauto.
Qed.

(** X9. A negative number of bins is not refused when the constants are
    derived: the bin size comes out negative, the generator yields no bin
    at all, the delegating role is built with no delegated role, and for
    every encodable target path the script then fails at line 214 with
    [KeyError] on the name [find_hash_bin] computed, for which no role
    exists. *)
Theorem negative_bins_key_error
    (generate_ed25519_key : nat -> SSlibKey.t) (utcnow : nat -> Z)
    (ed25519_sign : SSlibKey.t -> Targets.t -> string)
    (target_file_info : TargetFile.t) (TMP_DIR : string)
    (n : Z) (path : pystr) :
  n < 0 -> encodable path = true ->
  exists g name,
    module_constants n = Ok g /\
    BIN_SIZE g < 0 /\
    generate_hash_bins g = Ok [] /\
    build_delegation utcnow g (provision_keys generate_ed25519_key)
    = Ok [("bins"%string,
           bins_role utcnow (generate_ed25519_key 0%nat) [])] /\
    find_hash_bin g path = Ok name /\
    script generate_ed25519_key utcnow ed25519_sign target_file_info TMP_DIR
           n path = Raise (KeyError name).
Proof.
  intros Hn Henc.
  destruct (module_constants_negative n Hn) as (g & Eg & Hlen & HN & HS).
  destruct (find_hash_bin_nonzero g path Hlen ltac:(lia) Henc) as [name Ef].
  assert (Eb := generate_hash_bins_negative g HN HS).
  assert (Ebuild :
    build_delegation utcnow g (provision_keys generate_ed25519_key)
    = Ok [("bins"%string,
           bins_role utcnow (generate_ed25519_key 0%nat) [])]).
  { unfold build_delegation. rewrite Eb, provision_keys_eq. reflexivity. }
  exists g, name. split; [exact Eg|]. split; [lia|]. split; [exact Eb|].
  split; [exact Ebuild|]. split; [exact Ef|].
  unfold script. rewrite Eg. cbn [bind]. rewrite Ebuild. cbn [bind].
  unfold add_target. rewrite Ef. cbn [bind].
  unfold getitem. cbn [Dict.get key_eqb string_DictKey].
  assert (E : String.eqb "bins" name = false).
  { apply String.eqb_neq. intros <-.
    now apply (find_hash_bin_not_bins g path "bins"). }
  rewrite E. reflexivity.
Qed.

Lemma negative_bins_key_error_witness :
  exists name,
    sample_script (-1) this_target_path = Raise (KeyError name).
Proof.
  destruct (negative_bins_key_error sample_key sample_clock sample_sign
              sample_info "tmp" (-1) this_target_path ltac:(lia) eq_refl)
    as (g & name & _ & _ & _ & _ & _ & E).
  exists name. exact E.
Defined.

(** ** The result of the script, role by role *)

(** Only the bin around a prefix lists it. *)
Lemma prefix_listed_by_one_bin (g : Constants) (p low : Z) :
  well_formed g -> 0 <= p < NUMBER_OF_PREFIXES g ->
  In low (range_items 0 (NUMBER_OF_PREFIXES g) (BIN_SIZE g)) ->
  In (format_0x (PREFIX_LEN g) p) (snd (hash_bin g low)) ->
  low = p - p mod BIN_SIZE g.
Proof.
  intros (_ & Hlen & HN & _ & Hpos) Hp Hlow Hpre.
  cbn [hash_bin snd] in Hpre. apply in_map_iff in Hpre as (q & Eq & Hq).
  apply in_range2 in Hq. apply in_range_items in Hlow; [|lia].
  destruct Hlow as [[Hl0 HlN] Hmod]. rewrite Z.sub_0_r in Hmod.
  symmetry in Eq. rewrite HN in Hp.
  apply format_0x_inj_in_space in Eq; [|assumption|assumption|lia].
  subst q. apply Z.mod_divide in Hmod; [|lia]. destruct Hmod as [k Hk].
  rewrite low_is_multiple by lia.
  assert (Hk' : k = p / BIN_SIZE g).
  { apply (Z.div_unique p (BIN_SIZE g) k (p - low)); lia. }
  lia.
Qed.

Lemma built_keys_NoDup (utcnow : nat -> Z) (parent : Metadata.t)
    (g : Constants) :
  well_formed g ->
  let bins := map (hash_bin g)
                  (range_items 0 (NUMBER_OF_PREFIXES g) (BIN_SIZE g)) in
  NoDup (Dict.keys (("bins"%string, parent)
                      :: map (bin_role utcnow) (enumerate bins))).
Proof.
  intros Hwf bins.
  change (Dict.keys (?x :: ?l)) with (fst x :: Dict.keys l).
  rewrite bin_roles_keys. cbn [fst]. constructor.
  - intros Hin. apply in_map_iff in Hin as (bin & E & Hin).
    apply in_map_iff in Hin as (low & <- & _).
    cbn [hash_bin fst] in E. now apply bin_name_not_bins in E.
  - now apply bin_names_NoDup.
Qed.

Section ResultFacts.
Variable generate_ed25519_key : nat -> SSlibKey.t.
Variable utcnow : nat -> Z.
Variable ed25519_sign : SSlibKey.t -> Targets.t -> string.
Variable target_file_info : TargetFile.t.
Variable TMP_DIR : string.

(** The script's result for a positive number of bins and an encodable
    path: the signed delegating role, and for every generated bin its
    role, signed with the key of the bins, the role of the path's bin with
    the target in it. *)
Lemma script_result (n : Z) (path : pystr) :
  1 <= n -> encodable path = true ->
  exists g bin digest p repo,
    module_constants n = Ok g /\ well_formed g /\
    target_name_hash path = Ok digest /\
    int16 (slice_to (PREFIX_LEN g) digest) = Ok p /\
    0 <= p < NUMBER_OF_PREFIXES g /\
    bin = fst (hash_bin g (p - p mod BIN_SIZE g)) /\
    find_hash_bin g path = Ok bin /\
    script generate_ed25519_key utcnow ed25519_sign target_file_info TMP_DIR
           n path = Ok repo /\
    constants repo = g /\
    keys repo = provision_keys generate_ed25519_key /\
    files repo = map (persisted TMP_DIR) (roles repo) /\
    let bins := map (hash_bin g)
                    (range_items 0 (NUMBER_OF_PREFIXES g) (BIN_SIZE g)) in
    let k := generate_ed25519_key 0%nat in
    Dict.keys (roles repo) = "bins"%string :: map fst bins /\
    NoDup (Dict.keys (roles repo)) /\
    Dict.get (roles repo) "bins"%string
    = Some (sign ed25519_sign
              (bins_role utcnow k (map (delegated_role k) bins))
              (generate_ed25519_key 1%nat)) /\
    forall name doc, In (name, doc) (roles repo) ->
      name <> "bins"%string ->
      exists item,
        In item (enumerate bins) /\ name = fst (snd item) /\
        doc = sign ed25519_sign
                (if String.eqb name bin
                 then set_target (snd (bin_role utcnow item)) path
                                 target_file_info
                 else snd (bin_role utcnow item))
                k.
Proof.
  intros Hn Henc.
  destruct (script_closed generate_ed25519_key utcnow ed25519_sign
              target_file_info TMP_DIR n path Hn Henc)
    as (g & bin & role & Eg & Hwf & Ef & Hin & Er & Es).
  destruct (find_hash_bin_spec g path Hwf Henc)
    as (digest & p & Ed & _ & Ep & Hp & Ef').
  assert (Hbin : bin = fst (hash_bin g (p - p mod BIN_SIZE g)))
    by (rewrite Ef in Ef'; now injection Ef').
  assert (Hb : bin <> "bins"%string) by now apply (find_hash_bin_not_bins g path).
  cbv zeta in Hin, Er, Es.
  set (bins := map (hash_bin g)
                   (range_items 0 (NUMBER_OF_PREFIXES g) (BIN_SIZE g))) in *.
  set (k := generate_ed25519_key 0%nat) in *.
  set (parent := bins_role utcnow k (map (delegated_role k) bins)) in *.
  set (children := map (bin_role utcnow) (enumerate bins)) in *.
  assert (Hnd : NoDup (Dict.keys (("bins"%string, parent) :: children)))
    by apply (built_keys_NoDup utcnow parent g Hwf).
  assert (Eset :
    Dict.set (("bins"%string, parent) :: children) bin
             (set_target role path target_file_info)
    = ("bins"%string, parent)
        :: Dict.set children bin (set_target role path target_file_info)).
  { cbn [Dict.set key_eqb string_DictKey].
    assert (E : String.eqb "bins" bin = false)
      by (apply String.eqb_neq; congruence).
    now rewrite E. }
  exists g, bin, digest, p. eexists.
  split; [exact Eg|]. split; [exact Hwf|]. split; [exact Ed|].
  split; [exact Ep|]. split; [exact Hp|]. split; [exact Hbin|].
  split; [exact Ef|]. split; [exact Es|].
  cbn [constants keys files roles].
  split; [reflexivity|]. split; [reflexivity|]. split; [reflexivity|].
  assert (Hkeys :
    Dict.keys (map (signed_item generate_ed25519_key ed25519_sign)
                   (Dict.set (("bins"%string, parent) :: children) bin
                             (set_target role path target_file_info)))
    = "bins"%string :: map fst bins).
  { rewrite signed_items_keys, keys_set_present by congruence.
    change (Dict.keys (?x :: ?l)) with (fst x :: Dict.keys l).
    unfold children. now rewrite bin_roles_keys. }
  split; [exact Hkeys|]. split.
  { rewrite signed_items_keys, keys_set_present by congruence. exact Hnd. }
  split; [rewrite Eset; reflexivity|].
  intros name doc Hdoc Hname.
  apply in_map_iff in Hdoc as ([name0 doc0] & E & Hdoc).
  unfold signed_item in E. cbn [fst snd] in E. injection E as -> <-.
  assert (Hkey : signing_key generate_ed25519_key name = k).
  { unfold signing_key. apply String.eqb_neq in Hname. now rewrite Hname. }
  rewrite Hkey.
  apply in_set_inv in Hdoc; [|exact Hnd].
  destruct Hdoc as [[-> ->]|[Hne Hdoc]].
  - apply get_Some_in in Er. destruct Er as [E|Er]; [congruence|].
    apply in_map_iff in Er as (item & E & Hitem).
    exists item. split; [exact Hitem|].
    rewrite E. cbn [fst snd]. unfold bin_role in E. injection E as E _.
    split; [now symmetry|]. now rewrite String.eqb_refl.
  - destruct Hdoc as [E|Hdoc]; [congruence|].
    apply in_map_iff in Hdoc as (item & E & Hitem).
    exists item. split; [exact Hitem|].
    rewrite E. cbn [fst snd]. unfold bin_role in E. injection E as E _.
    split; [now symmetry|].
    apply String.eqb_neq in Hne. now rewrite Hne.
Qed.
End ResultFacts.

Lemma in_enumerate {A : Type} (l : list A) (x : A) :
  In x l -> exists item, In item (enumerate l) /\ snd item = x.
Proof.
  intros Hin. rewrite <- (map_snd_enumerate l) in Hin.
  apply in_map_iff in Hin as (item & E & Hin). eauto.
Qed.

Lemma enumerate_in {A : Type} (l : list A) (item : nat * A) :
  In item (enumerate l) -> In (snd item) l.
Proof.
  intros Hin. apply (in_map snd) in Hin. now rewrite map_snd_enumerate in Hin.
Qed.

(** X10. For every number of bins from one on, the wiring loop leaves a
    consistent graph: the registry holds the delegating role and, in
    generation order, one role per generated bin; the delegating role has
    no targets and no signature yet, its key table holds the one key of the
    bins, and its delegation entries are, in order, the generated bins with
    their prefix lists; every entry carries its own name, that key's id,
    threshold 1 and no terminating flag, and names a role that is in the
    registry, empty and unsigned. *)
Theorem delegation_graph_consistent
    (generate_ed25519_key : nat -> SSlibKey.t) (utcnow : nat -> Z) (n : Z) :
  1 <= n ->
  exists g bins roles parent d,
    module_constants n = Ok g /\
    generate_hash_bins g = Ok bins /\
    build_delegation utcnow g (provision_keys generate_ed25519_key)
    = Ok roles /\
    Dict.keys roles = "bins"%string :: map fst bins /\
    Dict.get roles "bins"%string = Some parent /\
    Targets.targets (Metadata.signed parent) = [] /\
    Metadata.signatures parent = [] /\
    Targets.delegations (Metadata.signed parent) = Some d /\
    Delegations.keys d
    = [(SSlibKey.keyid (generate_ed25519_key 0%nat),
        Key.from_securesystemslib_key (generate_ed25519_key 0%nat))] /\
    map (fun entry => (fst entry, DelegatedRole.path_hash_prefixes (snd entry)))
        (Delegations.roles d) = bins /\
    forall name entry, In (name, entry) (Delegations.roles d) ->
      DelegatedRole.name entry = name /\
      DelegatedRole.keyids entry
      = [SSlibKey.keyid (generate_ed25519_key 0%nat)] /\
      DelegatedRole.threshold entry = 1 /\
      DelegatedRole.terminating entry = false /\
      exists doc,
        Dict.get roles name = Some doc /\
        Targets.targets (Metadata.signed doc) = [] /\
        Targets.delegations (Metadata.signed doc) = None /\
        Metadata.signatures doc = [].
Proof.
  intros Hn.
  destruct (module_constants_positive n Hn) as (g & Eg & _ & _ & Hwf).
  set (bins := map (hash_bin g)
                   (range_items 0 (NUMBER_OF_PREFIXES g) (BIN_SIZE g))).
  set (k := generate_ed25519_key 0%nat).
  exists g, bins. eexists _, _, _.
  split; [exact Eg|]. split; [now apply generate_hash_bins_ok|].
  split; [apply (build_delegation_closed _ _ _ Hwf)|].
  fold bins k.
  split.
  { change (Dict.keys (?x :: ?l)) with (fst x :: Dict.keys l).
    now rewrite bin_roles_keys. }
  split; [reflexivity|]. split; [reflexivity|]. split; [reflexivity|].
  split; [reflexivity|]. cbn [Delegations.keys Delegations.roles].
  split; [reflexivity|]. split.
  { rewrite map_map. cbn [delegated_role fst snd
      DelegatedRole.path_hash_prefixes].
    rewrite <- (map_id bins) at 2. apply map_ext. now intros [? ?]. }
  intros name entry Hin. apply in_map_iff in Hin as (bin & E & Hbin).
  unfold delegated_role in E. injection E as <- <-.
  cbn [DelegatedRole.name DelegatedRole.keyids DelegatedRole.threshold
       DelegatedRole.terminating].
  repeat (split; [reflexivity|]).
  destruct (in_enumerate bins bin Hbin) as (item & Hitem & <-).
  exists (snd (bin_role utcnow item)). split; [|repeat split].
  apply in_get_NoDup; [apply (built_keys_NoDup utcnow _ g Hwf)|].
  right. apply in_map_iff. exists item. split; [reflexivity | exact Hitem].
Qed.

Lemma delegation_graph_consistent_witness :
  exists g bins roles,
    module_constants 3 = Ok g /\ generate_hash_bins g = Ok bins /\
    build_delegation sample_clock g (provision_keys sample_key) = Ok roles /\
    Dict.keys roles = "bins"%string :: map fst bins.
Proof.
  destruct (delegation_graph_consistent sample_key sample_clock 3 ltac:(lia))
    as (g & bins & roles & parent & d & Eg & Eb & Er & Ek & _).
  exists g, bins, roles. auto.
Defined.

(** X11. After the script, for a number of bins from one on and an
    encodable target path, the target is stored once: the role of the
    path's bin holds exactly the record of the path, and every other role,
    the delegating one included, holds no target.  The signed delegating
    role routes to it: with at most 64 prefix digits, the leading digits of
    the path's digest are listed by the delegation entry of that bin and by
    no other entry. *)
Theorem target_stored_once_and_routed
    (generate_ed25519_key : nat -> SSlibKey.t) (utcnow : nat -> Z)
    (ed25519_sign : SSlibKey.t -> Targets.t -> string)
    (target_file_info : TargetFile.t) (TMP_DIR : string)
    (n : Z) (path : pystr) :
  1 <= n -> encodable path = true ->
  exists repo bin digest parent d,
    script generate_ed25519_key utcnow ed25519_sign target_file_info TMP_DIR
           n path = Ok repo /\
    find_hash_bin (constants repo) path = Ok bin /\
    target_name_hash path = Ok digest /\
    In bin (Dict.keys (roles repo)) /\
    (forall name doc, In (name, doc) (roles repo) ->
       Targets.targets (Metadata.signed doc)
       = if String.eqb name bin then [(path, target_file_info)] else []) /\
    Dict.get (roles repo) "bins"%string = Some parent /\
    Targets.delegations (Metadata.signed parent) = Some d /\
    ((PREFIX_LEN (constants repo) <= 64)%nat ->
     forall name entry, In (name, entry) (Delegations.roles d) ->
       (In (slice_to (PREFIX_LEN (constants repo)) digest)
           (DelegatedRole.path_hash_prefixes entry)
        <-> name = bin)).
Proof.
  intros Hn Henc.
  destruct (script_result generate_ed25519_key utcnow ed25519_sign
              target_file_info TMP_DIR n path Hn Henc)
    as (g & bin & digest & p & repo & Eg & Hwf & Ed & Ep & Hp & Hbin & Ef
        & Es & Ec & _ & _ & Hkeys & Hnd & Eparent & Hroles).
  cbv zeta in Hkeys, Eparent, Hroles.
  set (bins := map (hash_bin g)
                   (range_items 0 (NUMBER_OF_PREFIXES g) (BIN_SIZE g))) in *.
  set (low := p - p mod BIN_SIZE g) in *.
  assert (Hb : bin <> "bins"%string) by now apply (find_hash_bin_not_bins g path).
  destruct (low_in_range g p Hwf Hp) as [Hlow Hrange]. fold low in Hlow, Hrange.
  exists repo, bin, digest. eexists _, _.
  split; [exact Es|]. rewrite Ec.
  split; [exact Ef|]. split; [exact Ed|]. split.
  { rewrite Hkeys. right. rewrite Hbin. apply in_map, in_map. exact Hlow. }
  split.
  { intros name doc Hdoc.
    destruct (String.eqb_spec name "bins") as [->|Hname].
    - apply in_get_NoDup in Hdoc; [|exact Hnd].
      rewrite Eparent in Hdoc. injection Hdoc as <-.
      apply String.eqb_neq in Hb. rewrite String.eqb_sym, Hb. reflexivity.
    - destruct (Hroles name doc Hdoc Hname) as (item & _ & _ & ->).
      destruct (String.eqb name bin); reflexivity. }
  split; [exact Eparent|]. split; [reflexivity|].
  intros H64 name entry Hin. cbn [Delegations.roles] in Hin.
  apply in_map_iff in Hin as (b & E & Hbin').
  unfold delegated_role in E. injection E as <- <-.
  cbn [DelegatedRole.path_hash_prefixes].
  assert (Hlen : (1 <= PREFIX_LEN g)%nat) by apply Hwf.
  rewrite <- (digest_prefix_format g path digest p ltac:(lia) Ed Ep).
  apply in_map_iff in Hbin' as (low' & <- & Hlow').
  split.
  - intros Hpre.
    apply (prefix_listed_by_one_bin g p low' Hwf Hp Hlow') in Hpre.
    rewrite Hbin. fold low. now rewrite Hpre.
  - intros E. rewrite Hbin in E. cbn [hash_bin fst] in E.
    apply in_range_items in Hlow', Hlow;
      try (assert (1 <= BIN_SIZE g) by apply Hwf; lia).
    apply (bin_name_inj g) in E; [|exact Hwf|lia|lia].
    subst low'. cbn [hash_bin snd]. apply in_map, in_range2. exact Hrange.
Qed.

Lemma target_stored_once_and_routed_witness :
  exists repo bin,
    sample_script configured_bins this_target_path = Ok repo /\
    find_hash_bin (constants repo) this_target_path = Ok bin /\
    In bin (Dict.keys (roles repo)).
Proof.
  destruct (target_stored_once_and_routed sample_key sample_clock sample_sign
              sample_info "tmp" configured_bins this_target_path
              ltac:(unfold configured_bins; lia) eq_refl)
    as (repo & bin & digest & parent & d & Es & Ef & _ & Hin & _).
  exists repo, bin. auto.
Defined.

Lemma in_keys_entry {K V : Type} (d : list (K * V)) (k : K) :
  In k (map fst d) -> exists v, In (k, v) d.
Proof.
  intros Hin. apply in_map_iff in Hin as ([k0 v] & E & Hin).
  cbn in E. subst k0. eauto.
Qed.

(** X12. After the script, what the signed delegating role says about a
    delegated role is what that role carries: for every delegation entry,
    the role it names is in the registry with exactly one signature, made
    over the role's final content with the key generated for the bins; the
    id of that key is among the entry's key ids and the key table of the
    delegations holds its public part under that id, and the threshold of
    the entry is the one signature there is. *)
Theorem delegated_roles_signed_as_delegated
    (generate_ed25519_key : nat -> SSlibKey.t) (utcnow : nat -> Z)
    (ed25519_sign : SSlibKey.t -> Targets.t -> string)
    (target_file_info : TargetFile.t) (TMP_DIR : string)
    (n : Z) (path : pystr) :
  1 <= n -> encodable path = true ->
  exists repo parent d,
    script generate_ed25519_key utcnow ed25519_sign target_file_info TMP_DIR
           n path = Ok repo /\
    Dict.get (roles repo) "bins"%string = Some parent /\
    Targets.delegations (Metadata.signed parent) = Some d /\
    Delegations.roles d <> [] /\
    forall name entry, In (name, entry) (Delegations.roles d) ->
      let key := generate_ed25519_key 0%nat in
      exists doc,
        Dict.get (roles repo) name = Some doc /\
        Metadata.signatures doc
        = [(SSlibKey.keyid key,
            Signature.mk (SSlibKey.keyid key)
                         (ed25519_sign key (Metadata.signed doc)))] /\
        In (SSlibKey.keyid key) (DelegatedRole.keyids entry) /\
        Dict.get (Delegations.keys d) (SSlibKey.keyid key)
        = Some (Key.from_securesystemslib_key key) /\
        DelegatedRole.threshold entry
        = Z.of_nat (List.length (Metadata.signatures doc)).
Proof.
  intros Hn Henc.
  destruct (script_result generate_ed25519_key utcnow ed25519_sign
              target_file_info TMP_DIR n path Hn Henc)
    as (g & bin & digest & p & repo & Eg & Hwf & _ & _ & _ & _ & _
        & Es & _ & _ & _ & Hkeys & Hnd & Eparent & Hroles).
  cbv zeta in Hkeys, Eparent, Hroles.
  set (bins := map (hash_bin g)
                   (range_items 0 (NUMBER_OF_PREFIXES g) (BIN_SIZE g))) in *.
  exists repo. eexists _, _.
  split; [exact Es|]. split; [exact Eparent|]. split; [reflexivity|].
  cbn [Delegations.roles Delegations.keys]. split.
  { intros E. apply map_eq_nil in E.
    now apply (generated_bins_nonempty g Hwf). }
  intros name entry Hin. cbv zeta.
  apply in_map_iff in Hin as (b & E & Hb).
  unfold delegated_role in E. injection E as <- <-.
  assert (Hname : fst b <> "bins"%string).
  { apply in_map_iff in Hb as (low & <- & _). apply bin_name_not_bins. }
  assert (Hk : In (fst b) (Dict.keys (roles repo)))
    by (rewrite Hkeys; right; now apply in_map).
  destruct (in_keys_entry _ _ Hk) as [doc Hdoc].
  exists doc. split; [now apply in_get_NoDup|].
  destruct (Hroles (fst b) doc Hdoc Hname) as (item & _ & _ & ->).
  cbn [DelegatedRole.keyids DelegatedRole.threshold].
  split; [reflexivity|]. split; [now left|]. split; [|reflexivity].
  cbn [Dict.get key_eqb string_DictKey]. now rewrite String.eqb_refl.
Qed.

Lemma delegated_roles_signed_as_delegated_witness :
  exists repo parent,
    sample_script configured_bins this_target_path = Ok repo /\
    Dict.get (roles repo) "bins"%string = Some parent.
Proof.
  destruct (delegated_roles_signed_as_delegated sample_key sample_clock
              sample_sign sample_info "tmp" configured_bins this_target_path
              ltac:(unfold configured_bins; lia) eq_refl)
    as (repo & parent & d & Es & Ep & _).
  exists repo, parent. auto.
Defined.

Lemma file_path_inj (dir a b : string) :
  (dir ++ "/" ++ a ++ ".json")%string = (dir ++ "/" ++ b ++ ".json")%string ->
  a = b.
Proof.
  intros E. apply append_inv_length in E; [|reflexivity].
  destruct E as [_ E]. cbn [append] in E. injection E as E.
  assert (Hl := f_equal String.length E).
  rewrite !length_append in Hl.
  apply append_inv_length in E; [tauto | lia].
Qed.

(** X13. After the script, every role has been written once, in the order
    of the registry: the delegating role to [bins.json], every bin role to
    the file called after its bin, all in the output directory and no two
    to the same path; what was written is the role as signed. *)
Theorem one_file_per_role
    (generate_ed25519_key : nat -> SSlibKey.t) (utcnow : nat -> Z)
    (ed25519_sign : SSlibKey.t -> Targets.t -> string)
    (target_file_info : TargetFile.t) (TMP_DIR : string)
    (n : Z) (path : pystr) :
  1 <= n -> encodable path = true ->
  exists repo bins,
    script generate_ed25519_key utcnow ed25519_sign target_file_info TMP_DIR
           n path = Ok repo /\
    generate_hash_bins (constants repo) = Ok bins /\
    map fst (files repo)
    = map (fun role_name => (TMP_DIR ++ "/" ++ role_name ++ ".json")%string)
          ("bins"%string :: map fst bins) /\
    NoDup (map fst (files repo)) /\
    map snd (files repo) = map snd (roles repo).
Proof.
  intros Hn Henc.
  destruct (script_result generate_ed25519_key utcnow ed25519_sign
              target_file_info TMP_DIR n path Hn Henc)
    as (g & bin & digest & p & repo & Eg & Hwf & _ & _ & _ & _ & _
        & Es & Ec & _ & Efiles & Hkeys & Hnd & _).
  cbv zeta in Hkeys.
  exists repo. eexists.
  split; [exact Es|]. rewrite Ec.
  split; [now apply generate_hash_bins_ok|].
  assert (Hpaths :
    map fst (files repo)
    = map (fun role_name => (TMP_DIR ++ "/" ++ role_name ++ ".json")%string)
          (Dict.keys (roles repo))).
  { rewrite Efiles. unfold Dict.keys. rewrite !map_map.
    apply map_ext. now intros [? ?]. }
  split; [now rewrite Hpaths, Hkeys|]. split.
  - rewrite Hpaths. apply NoDup_map_NoDup_ForallPairs; [|exact Hnd].
    intros a b _ _ E. now apply file_path_inj in E.
  - rewrite Efiles, map_map. apply map_ext. now intros [? ?].
Qed.

Lemma one_file_per_role_witness :
  exists repo,
    sample_script configured_bins this_target_path = Ok repo /\
    NoDup (map fst (files repo)).
Proof.
  destruct (one_file_per_role sample_key sample_clock sample_sign
              sample_info "tmp" configured_bins this_target_path
              ltac:(unfold configured_bins; lia) eq_refl)
    as (repo & bins & Es & _ & _ & Hnd & _).
  exists repo. auto.
Defined.

(** ** As many bins as prefixes *)

Lemma hexlen_pow16_pred (k : nat) :
  (1 <= k)%nat -> hexlen (16 ^ Z.of_nat k - 1) = k.
Proof.
  intros Hk.
  assert (Hp : 0 < 16 ^ Z.of_nat k) by (apply Z.pow_pos_nonneg; lia).
  apply Nat.le_antisymm.
  - apply hexlen_le; [exact Hk | lia].
  - assert (Hup := hexlen_upper (16 ^ Z.of_nat k - 1) ltac:(lia)).
    assert (Hle : 16 ^ Z.of_nat k <= 16 ^ Z.of_nat (hexlen (16 ^ Z.of_nat k - 1)))
      by lia.
    apply Z.pow_le_mono_r_iff in Hle; lia.
Qed.

(** X14. With as many bins as there are prefixes of some length (16, 256,
    ...), the bin size is one and the branch of [_bin_name] for equal
    bounds names every bin: the i-th bin lists the single zero-padded
    prefix of [i] and is called by it, without a dash. *)
Theorem one_prefix_bins (k : nat) :
  (1 <= k)%nat ->
  exists g bins,
    module_constants (16 ^ Z.of_nat k) = Ok g /\
    PREFIX_LEN g = k /\ BIN_SIZE g = 1 /\
    generate_hash_bins g = Ok bins /\
    bins = map (fun i => (hex_fixed k (Z.of_nat i), [hex_fixed k (Z.of_nat i)]))
               (seq 0 (Z.to_nat (16 ^ Z.of_nat k))) /\
    forall bin, In bin bins ->
      snd bin = [fst bin] /\ String.length (fst bin) = k.
Proof.
  intros Hk.
  assert (Hp : 0 < 16 ^ Z.of_nat k) by (apply Z.pow_pos_nonneg; lia).
  assert (Hpow : is_power_of_two (16 ^ Z.of_nat k)).
  { exists (4 * k)%nat. rewrite pow16_pow2 by lia. f_equal. lia. }
  destruct (module_constants_pow2 _ Hpow) as (g & Eg & En & El & Hwf & Hev).
  rewrite hexlen_pow16_pred in El by exact Hk.
  assert (HN : NUMBER_OF_PREFIXES g = 16 ^ Z.of_nat k)
    by (destruct Hwf as (_ & _ & HN & _); now rewrite HN, El).
  assert (HS : BIN_SIZE g = 1).
  { unfold evenly_divided in Hev. rewrite En, HN in Hev. nia. }
  assert (Hbins :
    map (hash_bin g) (range_items 0 (NUMBER_OF_PREFIXES g) (BIN_SIZE g))
    = map (fun i => (hex_fixed k (Z.of_nat i), [hex_fixed k (Z.of_nat i)]))
          (seq 0 (Z.to_nat (16 ^ Z.of_nat k)))).
  { rewrite (bins_by_index g (Z.to_nat (16 ^ Z.of_nat k)))
      by (rewrite ?Z2Nat.id; lia).
    apply map_ext_in. intros i Hi. apply in_seq in Hi.
    unfold hash_bin, _bin_name. rewrite HS, El, Z.mul_1_r.
    replace (Z.of_nat i + 1 - 1) with (Z.of_nat i) by lia.
    rewrite Z.eqb_refl.
    change (Z.of_nat i + 1) with (Z.of_nat i + Z.of_nat 1).
    rewrite range2_unfold. cbn [seq map]. rewrite Z.add_0_r.
    rewrite format_0x_fixed by lia. reflexivity. }
  exists g. eexists.
  split; [exact Eg|]. split; [exact El|]. split; [exact HS|].
  split; [now apply generate_hash_bins_ok|].
  split; [exact Hbins|].
  intros bin Hin. rewrite Hbins in Hin.
  apply in_map_iff in Hin as (i & <- & _). cbn [fst snd].
  split; [reflexivity | apply hex_fixed_length].
Qed.

Lemma one_prefix_bins_witness :
  exists g bins,
    module_constants 16 = Ok g /\ generate_hash_bins g = Ok bins /\
    List.length bins = 16%nat.
Proof.
  destruct (one_prefix_bins 1 ltac:(lia))
    as (g & bins & Eg & _ & _ & Eb & Hb & _).
  exists g, bins. split; [exact Eg|]. split; [exact Eb|].
  rewrite Hb. reflexivity.
Defined.
